(** * Emoji Tic Tac Toe front end: the view component of
    [tic_tac_toe_frontend/App.tsx]

    A shallow embedding of the component's state, its payload adoption
    ([updateFromPayload]), its three asynchronous operations (the mount
    effect [init], [onCellPress], [onReset]), the derived values
    ([API_BASE], [canPlay], [computedStatus], [toEmoji]) and the
    properties of the specification that concern them.

    Strings are Rocq strings holding the UTF-8 bytes of the JavaScript
    string.  The characters the program compares ('/', 'X', 'O', the
    letters of "/api" and "Error:") are ASCII, so prefix, suffix and
    equality tests on bytes agree with the tests on UTF-16 code units;
    [trim] recognises white space by its UTF-8 encodings. *)

From Stdlib Require Import String Ascii List ZArith NArith Bool Lia.
From Stdlib Require Import DecimalString DecimalPos DecimalZ.
Import ListNotations.
Open Scope string_scope.

(** ** Strings *)

Module Str.

(** [s.length > 0] *)
Definition nonempty (s : string) : bool :=
  match s with EmptyString => false | String _ _ => true end.

(** [s.startsWith(p)] *)
Definition startsWith (s p : string) : bool := String.prefix p s.

Fixpoint rev_acc (s acc : string) : string :=
  match s with
  | EmptyString => acc
  | String c s' => rev_acc s' (String c acc)
  end.

Definition rev (s : string) : string := rev_acc s EmptyString.

(** [s.endsWith(p)] *)
Definition endsWith (s p : string) : bool := String.prefix (rev p) (rev s).

Definition slash : ascii := "/"%char.

(** Drops the leading run of '/' of a string. *)
Fixpoint drop_slashes (s : string) : string :=
  match s with
  | String c s' => if Ascii.eqb c slash then drop_slashes s' else s
  | EmptyString => EmptyString
  end.

(** [s.replace(/\/+$/, '')]: the pattern is anchored at the end of the
    input (no [m] flag), so its only match is the whole trailing run of
    slashes, which is removed. *)
Definition strip_trailing_slashes (s : string) : string :=
  rev (drop_slashes (rev s)).

Definition bytes (l : list nat) : string :=
  string_of_list_ascii (map ascii_of_nat l).

(** The UTF-8 encodings of the code points that [String.prototype.trim]
    removes: ECMAScript WhiteSpace (TAB, VT, FF, ZWNBSP and the Unicode
    space separators) and LineTerminator (LF, CR, LS, PS). *)
Definition whitespace : list string :=
  map bytes
    [ [9]; [10]; [11]; [12]; [13]; [32];
      [194; 160];                                   (* U+00A0 *)
      [225; 154; 128];                              (* U+1680 *)
      [226; 128; 128]; [226; 128; 129]; [226; 128; 130]; [226; 128; 131];
      [226; 128; 132]; [226; 128; 133]; [226; 128; 134]; [226; 128; 135];
      [226; 128; 136]; [226; 128; 137]; [226; 128; 138]; (* U+2000..U+200A *)
      [226; 128; 168]; [226; 128; 169];             (* U+2028, U+2029 *)
      [226; 128; 175];                              (* U+202F *)
      [226; 129; 159];                              (* U+205F *)
      [227; 128; 128];                              (* U+3000 *)
      [239; 187; 191] ].                            (* U+FEFF *)

Definition is_ws (w : string) : bool :=
  existsb (String.eqb w) whitespace.

(** Removes the white space a string starts with; a white-space code
    point takes one, two or three bytes. *)
Fixpoint trimStart (s : string) : string :=
  match s with
  | String a r1 =>
      if is_ws (String a EmptyString) then trimStart r1 else
      match r1 with
      | String b r2 =>
          if is_ws (String a (String b EmptyString)) then trimStart r2 else
          match r2 with
          | String c r3 =>
              if is_ws (String a (String b (String c EmptyString)))
              then trimStart r3 else s
          | EmptyString => s
          end
      | EmptyString => s
      end
  | EmptyString => EmptyString
  end.

(** The same from the end, on the reversed string: the bytes of a code
    point arrive last byte first. *)
Fixpoint trimStart_rev (s : string) : string :=
  match s with
  | String a r1 =>
      if is_ws (String a EmptyString) then trimStart_rev r1 else
      match r1 with
      | String b r2 =>
          if is_ws (String b (String a EmptyString)) then trimStart_rev r2 else
          match r2 with
          | String c r3 =>
              if is_ws (String c (String b (String a EmptyString)))
              then trimStart_rev r3 else s
          | EmptyString => s
          end
      | EmptyString => s
      end
  | EmptyString => EmptyString
  end.

(** [s.trim()] *)
Definition trim (s : string) : string :=
  rev (trimStart_rev (rev (trimStart s))).

(** Decimal rendering of a non-negative integer, as a template literal
    renders [resp.status]. *)
Definition of_N (n : N) : string := NilEmpty.string_of_uint (N.to_uint n).

End Str.

Example trim_spaces : Str.trim "  http://h/  " = "http://h/".
Proof. reflexivity. Qed.
Example trim_unicode :
  Str.trim (Str.bytes [226; 128; 168] ++ "a b" ++ Str.bytes [194; 160; 10]) = "a b".
Proof. reflexivity. Qed.
Example trim_blank : Str.trim (Str.bytes [32; 9; 239; 187; 191]) = "".
Proof. reflexivity. Qed.
Example strip_slashes : Str.strip_trailing_slashes "http://h///" = "http://h".
Proof. reflexivity. Qed.
Example strip_inner : Str.strip_trailing_slashes "http://h/a" = "http://h/a".
Proof. reflexivity. Qed.

Arguments Str.trim : simpl never.

(** ** JavaScript values

    What [resp.json()] can produce, plus [undefined], the result of reading
    a property that is absent.  A number is carried as its [Number::toString]
    rendering: JSON yields no NaN, and the program only tests a number for
    truthiness and converts it to a string, so the rendering determines
    everything it can observe (both zeros render as "0").  An object is the
    list of its own properties. *)

#[local] Set Warnings "-register-all".

Inductive value : Type :=
| Undefined
| Null
| Bool (b : bool)
| Num (lit : string)
| Str (s : string)
| Arr (elems : list value)
| Obj (props : list (string * value)).

Module JS.

(** Own property [k] of a property list. *)
Fixpoint own (props : list (string * value)) (k : string) : option value :=
  match props with
  | [] => None
  | (k', v) :: rest => if String.eqb k k' then Some v else own rest k
  end.

(** [v?.k] for the names the program reads ([id], [board], [nextPlayer],
    [winner], [isDraw]): none of them is inherited from a prototype and
    none is an own property of an array or of a primitive. *)
Definition get (v : value) (k : string) : value :=
  match v with
  | Obj props => match own props k with Some x => x | None => Undefined end
  | _ => Undefined
  end.

(** ToBoolean: [if (v)], [!v], [Boolean(v)]. *)
Definition truthy (v : value) : bool :=
  match v with
  | Undefined | Null => false
  | Bool b => b
  | Num lit => negb (String.eqb lit "0")
  | Str s => Str.nonempty s
  | Arr _ | Obj _ => true
  end.

(** [v === 'lit'] *)
Definition is_str (v : value) (lit : string) : bool :=
  match v with Str s => String.eqb s lit | _ => false end.

(** [v !== null] *)
Definition not_null (v : value) : bool :=
  match v with Null => false | _ => true end.

(** [v ?? d] *)
Definition nullish_or (v d : value) : value :=
  match v with Undefined | Null => d | _ => v end.

(** [Array.isArray(v) && v.length === n] *)
Definition is_array_of_length (v : value) (n : nat) : bool :=
  match v with Arr l => Nat.eqb (List.length l) n | _ => false end.

(** [String(v)]; [None] stands for the TypeError of OrdinaryToPrimitive.
    A parsed object holds no function, so an own [toString] shadows
    [Object.prototype.toString] with a value that cannot be called, and
    [valueOf] (own, or inherited and returning the object itself) gives no
    primitive.  An array is joined with commas, [null] and [undefined]
    elements rendering as the empty string. *)
Fixpoint toString (v : value) : option string :=
  match v with
  | Undefined => Some "undefined"
  | Null => Some "null"
  | Bool true => Some "true"
  | Bool false => Some "false"
  | Num lit => Some lit
  | Str s => Some s
  | Arr l =>
      (fix join (l : list value) : option string :=
         match l with
         | [] => Some ""
         | x :: rest =>
             let elem :=
               match x with
               | Undefined | Null => Some ""
               | _ => toString x
               end in
             match elem, rest with
             | None, _ => None
             | Some sx, [] => Some sx
             | Some sx, _ :: _ =>
                 match join rest with
                 | Some sr => Some (sx ++ "," ++ sr)
                 | None => None
                 end
             end
         end) l
  | Obj props =>
      match own props "toString" with
      | Some _ => None
      | None => Some "[object Object]"
      end
  end.

End JS.

Example toString_arr :
  JS.toString (Arr [Num "1"; Null; Arr [Str "a"; Bool true]; Obj []])
  = Some "1,,a,true,[object Object]".
Proof. reflexivity. Qed.
Example toString_empty_arr : JS.toString (Arr []) = Some "". Proof. reflexivity. Qed.
Example toString_shadowed : JS.toString (Obj [("toString", Num "1")]) = None.
Proof. reflexivity. Qed.

(** ** Component state (the seven [useState] cells) *)

Record State : Type := mkState {
  gameId : option string;          (* string | null *)
  board : list value;
  nextPlayer : string;
  winner : value;
  isDraw : bool;
  isLoading : bool;
  statusMessage : string
}.

(** [Array(9).fill(null)] *)
Definition empty_board : list value := repeat Null 9.

Definition initial : State :=
  {| gameId := None; board := empty_board; nextPlayer := "X"; winner := Null;
     isDraw := false; isLoading := true; statusMessage := "Initializing..." |}.

(** ** Requests and responses *)

Record Request : Type := mkRequest {
  method : string;
  url : string;
  headers : list (string * string);
  body : option string
}.

(** A thrown value as the [catch] clauses see it: an object with a
    [message] (carried as [String(e.message)]), or anything else. *)
Inductive Thrown : Type :=
| WithMessage (message : string)
| Opaque.

Inductive Outcome (A : Type) : Type :=
| Returned (a : A)
| Threw (e : Thrown).
Arguments Returned {A} a.
Arguments Threw {A} e.

Record Response : Type := mkResponse {
  status : N;
  text : option string;            (* resp.text(); None when it rejects *)
  json : Outcome value             (* resp.json() *)
}.

(** [resp.ok]: the status is in the range 200..299. *)
Definition ok (r : Response) : bool :=
  (200 <=? status r)%N && (status r <=? 299)%N.

Inductive FetchResult : Type :=
| Rejects (e : Thrown)
| Resolves (r : Response).

Definition Network : Type := Request -> FetchResult.

(** ** Effects

    An operation runs against the component state and the log of the
    requests it has sent, and either returns or throws. *)

Record World : Type := mkWorld {
  view : State;
  calls : list Request
}.

Definition M (A : Type) : Type := World -> Outcome A * World.

Definition ret {A} (a : A) : M A := fun w => (Returned a, w).

Definition bind {A B} (c : M A) (k : A -> M B) : M B :=
  fun w =>
    match c w with
    | (Returned a, w') => k a w'
    | (Threw e, w') => (Threw e, w')
    end.

Notation "x <- c ;; k" := (bind c (fun x => k))
  (at level 61, c at next level, right associativity).
Notation "c ;; k" := (bind c (fun _ => k))
  (at level 61, right associativity).

Definition throw {A} (e : Thrown) : M A := fun w => (Threw e, w).

(** [try { body } catch (e) { handler e }] *)
Definition try_catch {A} (body : M A) (handler : Thrown -> M A) : M A :=
  fun w =>
    match body w with
    | (Returned a, w') => (Returned a, w')
    | (Threw e, w') => handler e w'
    end.

(** [try { body } finally { fin }]: [fin] runs on both exits. *)
Definition try_finally {A} (body : M A) (fin : M unit) : M A :=
  fun w =>
    match body w with
    | (r, w') =>
        match fin w' with
        | (Returned _, w'') => (r, w'')
        | (Threw e, w'') => (Threw e, w'')
        end
    end.

Definition when (b : bool) (c : M unit) : M unit :=
  if b then c else ret tt.

(** The values the current render closed over. *)
Definition read : M State := fun w => (Returned (view w), w).

Definition update (f : State -> State) : M unit :=
  fun w => (Returned tt, {| view := f (view w); calls := calls w |}).

(** [await fetch(url, init)] *)
Definition fetch (net : Network) (rq : Request) : M Response :=
  fun w =>
    let w' := {| view := view w; calls := calls w ++ [rq] |} in
    match net rq with
    | Resolves r => (Returned r, w')
    | Rejects e => (Threw e, w')
    end.

(** [await resp.json()] *)
Definition resp_json (r : Response) : M value :=
  match json r with
  | Returned v => ret v
  | Threw e => throw e
  end.

(** [await resp.text().catch(() => '')] *)
Definition resp_text (r : Response) : M string :=
  ret (match text r with Some t => t | None => "" end).

(** [String(v)] as an operation. *)
Definition String_ (v : value) : M string :=
  match JS.toString v with
  | Some s => ret s
  | None => throw (WithMessage "Cannot convert object to primitive value")
  end.

(** The state setters. *)
Definition setGameId (x : option string) : M unit :=
  update (fun s => {| gameId := x; board := board s; nextPlayer := nextPlayer s;
                      winner := winner s; isDraw := isDraw s;
                      isLoading := isLoading s; statusMessage := statusMessage s |}).
Definition setBoard (x : list value) : M unit :=
  update (fun s => {| gameId := gameId s; board := x; nextPlayer := nextPlayer s;
                      winner := winner s; isDraw := isDraw s;
                      isLoading := isLoading s; statusMessage := statusMessage s |}).
Definition setNextPlayer (x : string) : M unit :=
  update (fun s => {| gameId := gameId s; board := board s; nextPlayer := x;
                      winner := winner s; isDraw := isDraw s;
                      isLoading := isLoading s; statusMessage := statusMessage s |}).
Definition setWinner (x : value) : M unit :=
  update (fun s => {| gameId := gameId s; board := board s; nextPlayer := nextPlayer s;
                      winner := x; isDraw := isDraw s;
                      isLoading := isLoading s; statusMessage := statusMessage s |}).
Definition setIsDraw (x : bool) : M unit :=
  update (fun s => {| gameId := gameId s; board := board s; nextPlayer := nextPlayer s;
                      winner := winner s; isDraw := x;
                      isLoading := isLoading s; statusMessage := statusMessage s |}).
Definition setIsLoading (x : bool) : M unit :=
  update (fun s => {| gameId := gameId s; board := board s; nextPlayer := nextPlayer s;
                      winner := winner s; isDraw := isDraw s;
                      isLoading := x; statusMessage := statusMessage s |}).
Definition setStatusMessage (x : string) : M unit :=
  update (fun s => {| gameId := gameId s; board := board s; nextPlayer := nextPlayer s;
                      winner := winner s; isDraw := isDraw s;
                      isLoading := isLoading s; statusMessage := x |}).

(** ** Derived values *)

(** [API_BASE], from the value of [process.env.EXPO_PUBLIC_BACKEND_URL]
    ([None] when the variable is not defined). *)
Definition API_BASE (fromEnv : option string) : string :=
  let base :=
    match fromEnv with
    | Some e =>
        if Str.nonempty e && Str.nonempty (Str.trim e)
        then e else "http://localhost:3001"
    | None => "http://localhost:3001"
    end in
  if Str.endsWith base "/api" then base
  else Str.strip_trailing_slashes base ++ "/api".

Definition toEmoji (v : value) : string :=
  if JS.is_str v "X" then "❌"
  else if JS.is_str v "O" then "⭕️"
  else "⬜️".

Definition computedStatus (s : State) : string :=
  if isLoading s then "Loading..."
  else if JS.truthy (winner s)
       then "Winner: " ++ (if JS.is_str (winner s) "X" then "❌" else "⭕️")
  else if isDraw s then "Draw!"
  else "Turn: " ++ (if String.eqb (nextPlayer s) "X" then "❌" else "⭕️").

Definition canPlay (s : State) : bool :=
  negb (isLoading s) && negb (JS.truthy (winner s)) && negb (isDraw s).

(** [!gameId]: null or the empty string. *)
Definition no_gameId (s : State) : bool :=
  match gameId s with
  | Some g => negb (Str.nonempty g)
  | None => true
  end.

(** [board[index]] for an integer index: [undefined] outside the array. *)
Definition cell_at (b : list value) (index : Z) : value :=
  if (index <? 0)%Z then Undefined
  else nth (Z.to_nat index) b Undefined.

(** The texts of the nine grid cells, in order: [board.map(... toEmoji(cell))]. *)
Definition rendered_cells (s : State) : list string := map toEmoji (board s).

(** ** Payload adoption *)

Definition updateFromPayload (payload : value) : M unit :=
  try_catch
    (when (JS.truthy (JS.get payload "id"))
       (g <- String_ (JS.get payload "id") ;; setGameId (Some g)) ;;
     when (JS.is_array_of_length (JS.get payload "board") 9)
       (match JS.get payload "board" with
        | Arr b => setBoard b
        | _ => ret tt
        end) ;;
     when (JS.is_str (JS.get payload "nextPlayer") "X"
           || JS.is_str (JS.get payload "nextPlayer") "O")
       (match JS.get payload "nextPlayer" with
        | Str p => setNextPlayer p
        | _ => ret tt
        end) ;;
     setWinner (JS.nullish_or (JS.get payload "winner") Null) ;;
     setIsDraw (JS.truthy (JS.get payload "isDraw")))
    (fun _ => ret tt).

(** ** The operations *)

Definition json_headers : list (string * string) :=
  [("Content-Type", "application/json")].

Definition dquote : string := String (ascii_of_nat 34) EmptyString.

(** [JSON.stringify({ index })] for an integer index. *)
Definition move_body (index : Z) : string :=
  "{" ++ dquote ++ "index" ++ dquote ++ ":"
      ++ NilZero.string_of_int (Z.to_int index) ++ "}".

(** The message a [catch (e)] clause extracts, with its fallback. *)
Definition message_of (e : Thrown) (fallback : string) : string :=
  match e with
  | WithMessage m => m
  | Opaque => fallback
  end.

Section Operations.

(** The resolved API base and the backend's behaviour. *)
Variable base : string.
Variable net : Network.

Definition health_request : Request :=
  {| method := "GET"; url := base ++ "/health"; headers := []; body := None |}.

Definition create_request : Request :=
  {| method := "POST"; url := base ++ "/games/";
     headers := json_headers; body := None |}.

Definition move_request (g : string) (index : Z) : Request :=
  {| method := "POST"; url := base ++ "/games/" ++ g ++ "/move/";
     headers := json_headers; body := Some (move_body index) |}.

Definition reset_request (g : string) : Request :=
  {| method := "POST"; url := base ++ "/games/" ++ g ++ "/reset/";
     headers := json_headers; body := None |}.

(** The mount effect.  [isMounted] is the value of the closure's flag
    when the requests have settled; every test of it comes after the
    last [await] of its path. *)
Definition init (isMounted : bool) : M unit :=
  setIsLoading true ;;
  setStatusMessage "Pinging server..." ;;
  try_finally
    (try_catch
       (healthResp <- fetch net health_request ;;
        when (negb (ok healthResp))
          (throw (WithMessage
                    ("Health check failed: " ++ Str.of_N (status healthResp)))) ;;
        setStatusMessage "Creating game..." ;;
        createResp <- fetch net create_request ;;
        when (negb (ok createResp))
          (throw (WithMessage
                    ("Failed to create game: " ++ Str.of_N (status createResp)))) ;;
        data <- resp_json createResp ;;
        if negb isMounted then ret tt
        else updateFromPayload data ;; setStatusMessage "Game ready!")
       (fun e =>
          if negb isMounted then ret tt
          else setStatusMessage
                 ("Error: " ++ message_of e "Unable to connect to backend")))
    (when isMounted (setIsLoading false)).

Definition onCellPress (index : Z) : M unit :=
  s <- read ;;
  if negb (canPlay s) then ret tt
  else if no_gameId s then ret tt
  else if JS.not_null (cell_at (board s) index) then ret tt
  else
    try_finally
      (try_catch
         (setIsLoading true ;;
          setStatusMessage "Submitting move..." ;;
          resp <- fetch net
                    (move_request (match gameId s with Some g => g | None => "null" end)
                                  index) ;;
          when (negb (ok resp))
            (text <- resp_text resp ;;
             throw (WithMessage
                      (Str.trim ("Move failed: " ++ Str.of_N (status resp)
                                                 ++ " " ++ text)))) ;;
          data <- resp_json resp ;;
          updateFromPayload data ;;
          setStatusMessage "Move accepted.")
         (fun e => setStatusMessage ("Error: " ++ message_of e "Move failed")))
      (setIsLoading false).

Definition onReset : M unit :=
  s <- read ;;
  if no_gameId s then ret tt
  else
    try_finally
      (try_catch
         (setIsLoading true ;;
          setStatusMessage "Resetting game..." ;;
          resp <- fetch net
                    (reset_request (match gameId s with Some g => g | None => "null" end)) ;;
          when (negb (ok resp))
            (text <- resp_text resp ;;
             throw (WithMessage
                      (Str.trim ("Reset failed: " ++ Str.of_N (status resp)
                                                  ++ " " ++ text)))) ;;
          data <- resp_json resp ;;
          updateFromPayload data ;;
          setStatusMessage "Game reset.")
         (fun e => setStatusMessage ("Error: " ++ message_of e "Reset failed")))
      (setIsLoading false).

End Operations.

(** Running an operation on a state: the final state and the requests
    sent, in order. *)
Definition exec (op : M unit) (s : State) : State * list Request :=
  let w := snd (op {| view := s; calls := [] |}) in (view w, calls w).

(** ** The view as a transition system *)

Inductive Event : Type :=
| Mounted (isMounted : bool)        (* the mount effect runs to its end *)
| CellPressed (index : Z)
| ResetPressed.

Definition handler (base : string) (net : Network) (e : Event) : M unit :=
  match e with
  | Mounted m => init base net m
  | CellPressed i => onCellPress base net i
  | ResetPressed => onReset base net
  end.

Definition step (base : string) (s : State) (en : Event * Network) : State :=
  fst (exec (handler base (snd en) (fst en)) s).

(** The state after a history of events, each with the backend's behaviour
    at that time. *)
Definition run (base : string) (h : list (Event * Network)) : State :=
  fold_left (step base) h initial.

(** *** The scenario of the specification *)

Definition nine_null : value := Arr (repeat Null 9).

Definition payload_g1 : value :=
  Obj [("id", Str "g1"); ("board", nine_null); ("nextPlayer", Str "X");
       ("winner", Null); ("isDraw", Bool false)].

Definition payload_move4 : value :=
  Obj [("board", Arr [Null; Null; Null; Null; Str "X"; Null; Null; Null; Null]);
       ("nextPlayer", Str "O"); ("winner", Null); ("isDraw", Bool false)].

Definition respond (v : value) : FetchResult :=
  Resolves {| status := 200; text := None; json := Returned v |}.

Definition net_create : Network := fun _ => respond payload_g1.
Definition net_move4 : Network := fun _ => respond payload_move4.

Definition scenario1 : State := run "http://h/api" [(Mounted true, net_create)].
Definition scenario2 : State :=
  run "http://h/api" [(Mounted true, net_create); (CellPressed 4, net_move4)].

Example scenario1_status : computedStatus scenario1 = "Turn: ❌".
Proof. reflexivity. Qed.
Example scenario1_cells : rendered_cells scenario1 = repeat "⬜️" 9.
Proof. reflexivity. Qed.
Example scenario2_status : computedStatus scenario2 = "Turn: ⭕️".
Proof. reflexivity. Qed.
Example scenario2_cell4 : nth 4 (rendered_cells scenario2) "" = "❌".
Proof. reflexivity. Qed.
Example scenario2_request :
  snd (exec (onCellPress "http://h/api" net_move4 4) scenario1)
  = [ {| method := "POST"; url := "http://h/api/games/g1/move/";
         headers := json_headers; body := Some (move_body 4) |} ].
Proof. reflexivity. Qed.
Example move_body_4 : move_body 4 = "{" ++ dquote ++ "index" ++ dquote ++ ":4}".
Proof. reflexivity. Qed.

(** * Properties *)

(** ** The net effect of payload adoption *)

(** [String(payload.id)] is reached and throws. *)
Definition id_throws (p : value) : bool :=
  JS.truthy (JS.get p "id") &&
  match JS.toString (JS.get p "id") with None => true | Some _ => false end.

Definition valid_board (p : value) : bool :=
  JS.is_array_of_length (JS.get p "board") 9.

Definition valid_nextPlayer (p : value) : bool :=
  JS.is_str (JS.get p "nextPlayer") "X" || JS.is_str (JS.get p "nextPlayer") "O".

(** The state an adoption leaves behind. *)
Definition adopt (p : value) (s : State) : State :=
  fst (exec (updateFromPayload p) s).

Ltac unfold_monad :=
  unfold try_finally, try_catch, bind, when, ret, throw, read, update,
    setGameId, setBoard, setNextPlayer, setWinner, setIsDraw, setIsLoading,
    setStatusMessage, resp_json, resp_text, String_ in *.

(** Adoption never throws and sends nothing. *)
Lemma updateFromPayload_view (p : value) (w : World) :
  updateFromPayload p w
  = (Returned tt, {| view := adopt p (view w); calls := calls w |}).
Proof.
  destruct w as [s c]. unfold adopt, exec, updateFromPayload. unfold_monad. cbn.
  destruct (JS.truthy (JS.get p "id")); [destruct (JS.toString (JS.get p "id")) |];
    cbn;
    destruct (JS.is_array_of_length (JS.get p "board") 9);
    destruct (JS.get p "board"); cbn;
    destruct (JS.is_str (JS.get p "nextPlayer") "X" || JS.is_str (JS.get p "nextPlayer") "O");
    destruct (JS.get p "nextPlayer"); cbn; reflexivity.
Qed.

(** When the conversion of the id throws, nothing is assigned. *)
Lemma adopt_throws (p : value) (s : State) :
  id_throws p = true -> adopt p s = s.
Proof.
  unfold id_throws, adopt, exec, updateFromPayload. unfold_monad. cbn.
  destruct (JS.truthy (JS.get p "id")); [| discriminate].
  destruct (JS.toString (JS.get p "id")); [discriminate |].
  destruct s; reflexivity.
Qed.

(** Otherwise each of the five fields is decided on its own. *)
Lemma adopt_fields (p : value) (s : State) :
  id_throws p = false ->
  adopt p s =
  {| gameId := if JS.truthy (JS.get p "id")
               then JS.toString (JS.get p "id") else gameId s;
     board := match JS.get p "board" with
              | Arr b => if valid_board p then b else board s
              | _ => board s
              end;
     nextPlayer := match JS.get p "nextPlayer" with
                   | Str q => if valid_nextPlayer p then q else nextPlayer s
                   | _ => nextPlayer s
                   end;
     winner := JS.nullish_or (JS.get p "winner") Null;
     isDraw := JS.truthy (JS.get p "isDraw");
     isLoading := isLoading s;
     statusMessage := statusMessage s |}.
Proof.
  unfold id_throws, valid_board, valid_nextPlayer, adopt, exec, updateFromPayload.
  unfold_monad. cbn.
  destruct (JS.truthy (JS.get p "id")); [destruct (JS.toString (JS.get p "id")) |];
    cbn; try discriminate; intros _;
    destruct (JS.get p "board") as [| | | | |b|]; cbn;
    try destruct (Nat.eqb (length b) 9); cbn;
    destruct (JS.get p "nextPlayer") as [| | | |q| |]; cbn;
    try destruct (String.eqb q "X" || String.eqb q "O"); cbn; reflexivity.
Qed.

(** A finished game: X holds the top row. *)
Definition x_won : State :=
  {| gameId := Some "g1";
     board := [Str "X"; Str "X"; Str "X"; Str "O"; Str "O"; Null; Null; Null; Null];
     nextPlayer := "O"; winner := Str "X"; isDraw := false;
     isLoading := false; statusMessage := "Move accepted." |}.

(** A drawn game. *)
Definition drawn : State :=
  {| gameId := Some "g1";
     board := [Str "X"; Str "O"; Str "X"; Str "X"; Str "O"; Str "O";
               Str "O"; Str "X"; Str "X"];
     nextPlayer := "O"; winner := Null; isDraw := true;
     isLoading := false; statusMessage := "Move accepted." |}.

(** ** C1: payload adoption, field by field *)

(** C1, as stated, does not hold: [winner] and [isDraw] are assigned without
    any validation, so a payload that lacks them does not leave them
    unchanged.  The empty object resets the winner of a finished game to
    [null] and the draw flag of a drawn game to [false]. *)
Lemma missing_winner_and_isDraw_are_reset :
  ~ (forall p s, JS.get p "winner" = Undefined -> winner (adopt p s) = winner s)
  /\ ~ (forall p s, JS.get p "isDraw" = Undefined -> isDraw (adopt p s) = isDraw s).
Proof.
  split; intros H.
  - specialize (H (Obj []) x_won eq_refl). vm_compute in H. discriminate.
  - specialize (H (Obj []) drawn eq_refl). vm_compute in H. discriminate.
Qed.

(** C1 (amended): [id], [board] and [nextPlayer] are validated before
    assignment ([id] truthy, [board] an array of exactly 9 elements,
    [nextPlayer] 'X' or 'O'); an invalid or missing one leaves [gameId],
    [board] or [nextPlayer] as it was, and a field that changes was taken
    from a valid payload field.  [winner] and [isDraw] are not validated:
    unless the conversion of the id throws (which abandons the whole
    adoption), [winner] becomes [payload.winner ?? null], [isDraw] becomes
    [Boolean(payload.isDraw)] and the valid fields among the three are
    assigned.  The loading flag and the status message are never touched,
    the adoption does not throw and sends no request. *)
Theorem updateFromPayload_validates (p : value) (s : State) :
  (JS.truthy (JS.get p "id") = false -> gameId (adopt p s) = gameId s)
  /\ (valid_board p = false -> board (adopt p s) = board s)
  /\ (valid_nextPlayer p = false -> nextPlayer (adopt p s) = nextPlayer s)
  /\ (gameId (adopt p s) = gameId s
      \/ JS.truthy (JS.get p "id") = true
         /\ gameId (adopt p s) = JS.toString (JS.get p "id"))
  /\ (board (adopt p s) = board s
      \/ valid_board p = true /\ JS.get p "board" = Arr (board (adopt p s)))
  /\ (nextPlayer (adopt p s) = nextPlayer s
      \/ valid_nextPlayer p = true
         /\ JS.get p "nextPlayer" = Str (nextPlayer (adopt p s)))
  /\ (id_throws p = false ->
        winner (adopt p s) = JS.nullish_or (JS.get p "winner") Null
        /\ isDraw (adopt p s) = JS.truthy (JS.get p "isDraw")
        /\ (JS.truthy (JS.get p "id") = true ->
              gameId (adopt p s) = JS.toString (JS.get p "id"))
        /\ (valid_board p = true -> JS.get p "board" = Arr (board (adopt p s)))
        /\ (valid_nextPlayer p = true ->
              JS.get p "nextPlayer" = Str (nextPlayer (adopt p s))))
  /\ (id_throws p = true -> adopt p s = s)
  /\ isLoading (adopt p s) = isLoading s
  /\ statusMessage (adopt p s) = statusMessage s
  /\ exec (updateFromPayload p) s = (adopt p s, []).
Proof.
  assert (Hexec : exec (updateFromPayload p) s = (adopt p s, [])).
  { unfold exec. rewrite updateFromPayload_view. reflexivity. }
  destruct (id_throws p) eqn:Hthrow.
  - rewrite (adopt_throws p s Hthrow) in *.
    repeat split; auto; discriminate.
  - rewrite (adopt_fields p s Hthrow) in *. cbn.
    unfold valid_board, valid_nextPlayer, JS.is_array_of_length, JS.is_str in *.
    destruct (JS.truthy (JS.get p "id")) eqn:Hid;
      destruct (JS.get p "board") as [| | | | |b|]; cbn;
      try destruct (Nat.eqb (length b) 9); cbn;
      destruct (JS.get p "nextPlayer") as [| | | |q| |]; cbn;
      try destruct (String.eqb q "X" || String.eqb q "O"); cbn;
      repeat split; auto; try discriminate; intros; auto.
Qed.

(** A payload whose board has 8 entries and that names the next player:
    the board stays, the turn changes, the winner is cleared. *)
Definition payload_short_board : value :=
  Obj [("board", Arr (repeat Null 8)); ("nextPlayer", Str "X")].

Lemma updateFromPayload_validates_witness :
  board (adopt payload_short_board x_won) = board x_won
  /\ gameId (adopt payload_short_board x_won) = Some "g1"
  /\ winner (adopt payload_short_board x_won) = Null.
Proof.
  destruct (updateFromPayload_validates payload_short_board x_won)
    as (Hid & Hb & _ & _ & _ & _ & Hw & _).
  split; [apply Hb; reflexivity |].
  split; [apply Hid; reflexivity |].
  apply Hw. reflexivity.
Defined.

(** ** C4: a response without [nextPlayer] *)

Definition board_x4 : list value :=
  [Null; Null; Null; Null; Str "X"; Null; Null; Null; Null].

(** A response whose [id] is an object with an own [toString] entry. *)
Definition payload_bad_id : value :=
  Obj [("id", Obj [("toString", Null)]); ("board", Arr board_x4)].

(** C4, as stated, does not hold for every such payload: when the payload
    also carries an [id] that [String] cannot convert, the exception is
    swallowed by the [catch] before the board is looked at, and the valid
    board of the response is not applied. *)
Lemma valid_board_not_applied_when_id_throws :
  valid_nextPlayer payload_bad_id = false
  /\ valid_board payload_bad_id = true
  /\ JS.get payload_bad_id "board" = Arr board_x4
  /\ board (adopt payload_bad_id initial) = empty_board
  /\ board (adopt payload_bad_id initial) <> board_x4.
Proof.
  repeat split; try reflexivity. vm_compute. discriminate.
Qed.

(** C4 (amended): for every payload that lacks a valid [nextPlayer] and
    carries a valid 9-element board, adoption leaves [nextPlayer]
    unchanged, and replaces the board with the array of the response
    provided the conversion of the payload's id does not throw. *)
Theorem missing_nextPlayer_keeps_turn_and_applies_board
    (p : value) (s : State) (b : list value) :
  valid_nextPlayer p = false ->
  JS.get p "board" = Arr b ->
  length b = 9 ->
  nextPlayer (adopt p s) = nextPlayer s
  /\ (id_throws p = false -> board (adopt p s) = b).
Proof.
  intros Hnp Hb Hlen.
  destruct (id_throws p) eqn:Hthrow.
  - rewrite (adopt_throws p s Hthrow). split; [reflexivity | discriminate].
  - rewrite (adopt_fields p s Hthrow). cbn.
    unfold valid_board, valid_nextPlayer in *. rewrite Hb, Hnp. cbn.
    rewrite Hlen. cbn.
    split; [destruct (JS.get p "nextPlayer"); reflexivity | reflexivity].
Qed.

Lemma missing_nextPlayer_keeps_turn_and_applies_board_witness :
  nextPlayer (adopt (Obj [("board", Arr board_x4)]) x_won) = "O"
  /\ board (adopt (Obj [("board", Arr board_x4)]) x_won) = board_x4.
Proof.
  destruct (missing_nextPlayer_keeps_turn_and_applies_board
              (Obj [("board", Arr board_x4)]) x_won board_x4
              eq_refl eq_refl eq_refl) as [Hn Hb].
  split; [exact Hn | apply Hb; reflexivity].
Defined.

(** ** C3 and C10: the guards of the cell handler *)

Lemma canPlay_false (s : State) :
  canPlay s = false <->
  isLoading s = true \/ JS.truthy (winner s) = true \/ isDraw s = true.
Proof.
  unfold canPlay.
  destruct (isLoading s), (JS.truthy (winner s)), (isDraw s); cbn; intuition congruence.
Qed.

(** The handler returns before its [try] as soon as one guard fails. *)
Lemma onCellPress_returns_early
    (base : string) (net : Network) (index : Z) (s : State) :
  canPlay s = false
  \/ no_gameId s = true
  \/ JS.not_null (cell_at (board s) index) = true ->
  exec (onCellPress base net index) s = (s, []).
Proof.
  intros H. unfold exec, onCellPress. unfold_monad. cbn.
  destruct (canPlay s); cbn; [| reflexivity].
  destruct (no_gameId s); cbn; [reflexivity |].
  destruct (JS.not_null (cell_at (board s) index)); cbn; [reflexivity |].
  destruct H as [H | [H | H]]; discriminate.
Qed.

(** C3: pressing a cell whose entry is not [null], or pressing while
    [canPlay] is false (loading, a winner, or a draw), or pressing without a
    game id, sends no request and changes no state.  This holds for every
    index, the nine cell indices included. *)
Theorem onCellPress_guarded (base : string) (net : Network) (index : Z) (s : State) :
  JS.not_null (cell_at (board s) index) = true
  \/ (isLoading s = true \/ JS.truthy (winner s) = true \/ isDraw s = true)
  \/ no_gameId s = true ->
  exec (onCellPress base net index) s = (s, []).
Proof.
  intros [H | [H | H]]; apply onCellPress_returns_early.
  - right; right. exact H.
  - left. apply canPlay_false. exact H.
  - right; left. exact H.
Qed.

(** The three guards, one at a time; the network is never consulted. *)
Lemma onCellPress_guarded_witness :
  exec (onCellPress "http://h/api" net_move4 0) x_won = (x_won, [])
  /\ exec (onCellPress "http://h/api" net_move4 4) scenario2 = (scenario2, [])
  /\ exec (onCellPress "http://h/api" net_move4 4) initial = (initial, []).
Proof.
  split; [| split].
  - apply onCellPress_guarded. right; left. right; left. reflexivity.
  - apply onCellPress_guarded. left. reflexivity.
  - apply onCellPress_guarded. right; right. reflexivity.
Defined.

Lemma cell_at_outside (b : list value) (index : Z) :
  (index < 0 \/ Z.of_nat (length b) <= index)%Z -> cell_at b index = Undefined.
Proof.
  intros H. unfold cell_at.
  destruct (index <? 0)%Z eqn:Hneg; [reflexivity |].
  apply Z.ltb_ge in Hneg.
  apply nth_overflow. lia.
Qed.

(** C10: for every index outside 0..8, on a board of 9 entries, the cell
    handler sends no request and changes no state: [board[index]] is
    [undefined], which is not [null], so the empty-cell guard returns. *)
Theorem onCellPress_out_of_range
    (base : string) (net : Network) (index : Z) (s : State) :
  length (board s) = 9 ->
  (index < 0 \/ 9 <= index)%Z ->
  cell_at (board s) index = Undefined
  /\ exec (onCellPress base net index) s = (s, []).
Proof.
  intros Hlen Hidx.
  assert (Hcell : cell_at (board s) index = Undefined).
  { apply cell_at_outside. rewrite Hlen. lia. }
  split; [exact Hcell |].
  apply onCellPress_returns_early. right; right. rewrite Hcell. reflexivity.
Qed.

Lemma onCellPress_out_of_range_witness :
  (cell_at (board scenario1) 9 = Undefined
   /\ exec (onCellPress "http://h/api" net_move4 9) scenario1 = (scenario1, []))
  /\ (cell_at (board scenario1) (-1) = Undefined
      /\ exec (onCellPress "http://h/api" net_move4 (-1)) scenario1 = (scenario1, [])).
Proof.
  split.
  - apply (onCellPress_out_of_range "http://h/api" net_move4 9 scenario1);
      [reflexivity | right; lia].
  - apply (onCellPress_out_of_range "http://h/api" net_move4 (-1) scenario1);
      [reflexivity | left; lia].
Defined.

(** ** State invariants of the operations

    [preserves I op]: whichever way [op] ends, it takes a state satisfying
    [I] to a state satisfying [I]. *)

Definition preserves {A} (I : State -> Prop) (op : M A) : Prop :=
  forall w, I (view w) -> I (view (snd (op w))).

Section Preservation.

Variable I : State -> Prop.

Lemma preserves_ret {A} (a : A) : preserves I (ret a).
Proof. intros w H. exact H. Qed.

Lemma preserves_throw {A} (e : Thrown) : preserves I (@throw A e).
Proof. intros w H. exact H. Qed.

Lemma preserves_read : preserves I read.
Proof. intros w H. exact H. Qed.

Lemma preserves_bind {A B} (c : M A) (k : A -> M B) :
  preserves I c -> (forall a, preserves I (k a)) -> preserves I (bind c k).
Proof.
  intros Hc Hk w H. unfold bind.
  specialize (Hc w H). destruct (c w) as [[a | e] w']; cbn in *.
  - apply Hk. exact Hc.
  - exact Hc.
Qed.

Lemma preserves_try_catch {A} (body : M A) (h : Thrown -> M A) :
  preserves I body -> (forall e, preserves I (h e)) ->
  preserves I (try_catch body h).
Proof.
  intros Hb Hh w H. unfold try_catch.
  specialize (Hb w H). destruct (body w) as [[a | e] w']; cbn in *.
  - exact Hb.
  - apply Hh. exact Hb.
Qed.

Lemma preserves_try_finally {A} (body : M A) (fin : M unit) :
  preserves I body -> preserves I fin -> preserves I (try_finally body fin).
Proof.
  intros Hb Hf w H. unfold try_finally.
  specialize (Hb w H). destruct (body w) as [r w']; cbn in *.
  specialize (Hf w' Hb). destruct (fin w') as [[u | e] w'']; exact Hf.
Qed.

Lemma preserves_when (b : bool) (c : M unit) :
  preserves I c -> preserves I (when b c).
Proof. intros Hc. destruct b; [exact Hc | apply preserves_ret]. Qed.

Lemma preserves_if {A} (b : bool) (c1 c2 : M A) :
  preserves I c1 -> preserves I c2 -> preserves I (if b then c1 else c2).
Proof. intros H1 H2. destruct b; assumption. Qed.

Lemma preserves_fetch (net : Network) (rq : Request) : preserves I (fetch net rq).
Proof. intros w H. unfold fetch. destruct (net rq); exact H. Qed.

Lemma preserves_resp_json (r : Response) : preserves I (resp_json r).
Proof. intros w H. unfold resp_json. destruct (json r); exact H. Qed.

Lemma preserves_resp_text (r : Response) : preserves I (resp_text r).
Proof. intros w H. exact H. Qed.

Lemma preserves_updateFromPayload (p : value) :
  (forall s, I s -> I (adopt p s)) -> preserves I (updateFromPayload p).
Proof.
  intros Ha w H. rewrite updateFromPayload_view. cbn. apply Ha. exact H.
Qed.

(** What the invariant must allow: the two interface fields may change
    freely, and adoption must keep it. *)
Hypothesis I_isLoading : forall s b,
  I s -> I (view (snd (setIsLoading b {| view := s; calls := [] |}))).
Hypothesis I_statusMessage : forall s m,
  I s -> I (view (snd (setStatusMessage m {| view := s; calls := [] |}))).
Hypothesis I_adopt : forall p s, I s -> I (adopt p s).

Lemma preserves_setIsLoading (b : bool) : preserves I (setIsLoading b).
Proof. intros w H. apply (I_isLoading (view w) b H). Qed.

Lemma preserves_setStatusMessage (m : string) : preserves I (setStatusMessage m).
Proof. intros w H. apply (I_statusMessage (view w) m H). Qed.

Ltac preserve :=
  repeat first
    [ apply preserves_updateFromPayload; apply I_adopt
    | apply preserves_bind; [| intros ?]
    | apply preserves_try_finally
    | apply preserves_try_catch; [| intros ?]
    | apply preserves_when
    | apply preserves_if
    | apply preserves_ret
    | apply preserves_throw
    | apply preserves_read
    | apply preserves_fetch
    | apply preserves_resp_json
    | apply preserves_resp_text
    | apply preserves_setIsLoading
    | apply preserves_setStatusMessage ].

Lemma preserves_init base net m : preserves I (init base net m).
Proof. unfold init. preserve. Qed.

Lemma preserves_onCellPress base net i : preserves I (onCellPress base net i).
Proof. unfold onCellPress. preserve. Qed.

Lemma preserves_onReset base net : preserves I (onReset base net).
Proof. unfold onReset. preserve. Qed.

Lemma preserves_step base (s : State) (en : Event * Network) :
  I s -> I (step base s en).
Proof.
  intros H. unfold step, exec, handler. cbn.
  destruct en as [[m | i |] net]; cbn.
  - apply (preserves_init base net m (mkWorld s [])). exact H.
  - apply (preserves_onCellPress base net i (mkWorld s [])). exact H.
  - apply (preserves_onReset base net (mkWorld s [])). exact H.
Qed.

Lemma preserves_history base (h : list (Event * Network)) (s : State) :
  I s -> I (fold_left (step base) h s).
Proof.
  revert s. induction h as [| en h IH]; intros s H; cbn.
  - exact H.
  - apply IH. apply preserves_step. exact H.
Qed.

End Preservation.

(** ** C5: the board has nine entries *)

Definition nine_cells (s : State) : Prop := length (board s) = 9.

Lemma adopt_nine_cells (p : value) (s : State) :
  nine_cells s -> nine_cells (adopt p s).
Proof.
  unfold nine_cells. intros H.
  destruct (id_throws p) eqn:Hthrow.
  - rewrite (adopt_throws p s Hthrow). exact H.
  - rewrite (adopt_fields p s Hthrow). cbn. unfold valid_board.
    destruct (JS.get p "board") as [| | | | |b|]; try exact H. cbn.
    destruct (Nat.eqb (length b) 9) eqn:Hb; [| exact H].
    apply Nat.eqb_eq. exact Hb.
Qed.

(** C5: the board always has exactly 9 entries.  It has 9 entries
    initially; payload adoption and every operation (the mount effect, a
    cell press, a reset, on their success and error paths alike, whatever
    the backend answers) keep a board of 9 entries at 9 entries; hence the
    board has 9 entries after every history of events. *)
Theorem board_always_has_nine_entries (base : string) :
  length (board initial) = 9
  /\ (forall p s, length (board s) = 9 -> length (board (adopt p s)) = 9)
  /\ (forall s e net,
        length (board s) = 9 ->
        length (board (fst (exec (handler base net e) s))) = 9)
  /\ (forall h, length (board (run base h)) = 9).
Proof.
  split; [reflexivity |].
  split; [exact adopt_nine_cells |].
  split.
  - intros s e net H.
    apply (preserves_step nine_cells) with (en := (e, net)) (base := base);
      try exact H; intros; try apply adopt_nine_cells; assumption.
  - intros h. unfold run.
    apply (preserves_history nine_cells);
      intros; try apply adopt_nine_cells; try assumption.
    reflexivity.
Qed.

Lemma board_always_has_nine_entries_witness :
  length (board (adopt payload_short_board x_won)) = 9
  /\ length (board (fst (exec (handler "http://h/api" net_move4 (CellPressed 4))
                              scenario1))) = 9.
Proof.
  destruct (board_always_has_nine_entries "http://h/api") as (_ & Ha & Hs & _).
  split; [apply Ha | apply Hs]; reflexivity.
Defined.

(** ** C9: the game id, once set, stays set *)

Definition has_gameId (s : State) : Prop := gameId s <> None.

Lemma adopt_has_gameId (p : value) (s : State) :
  has_gameId s -> has_gameId (adopt p s).
Proof.
  unfold has_gameId. intros H.
  destruct (id_throws p) eqn:Hthrow.
  - rewrite (adopt_throws p s Hthrow). exact H.
  - rewrite (adopt_fields p s Hthrow). cbn.
    unfold id_throws in Hthrow.
    destruct (JS.truthy (JS.get p "id")); [| exact H].
    destruct (JS.toString (JS.get p "id")); [discriminate | discriminate].
Qed.

(** C9: once [gameId] is not [null], no operation sets it back to [null].
    Payload adoption overwrites it only when the payload's [id] is truthy,
    and then with a string; no other path assigns it.  So it stays non-null
    through every later history of events. *)
Theorem gameId_never_reset (base : string) (s : State) :
  gameId s <> None ->
  (forall p, gameId (adopt p s) <> None)
  /\ (forall p, JS.truthy (JS.get p "id") = false -> gameId (adopt p s) = gameId s)
  /\ (forall e net, gameId (fst (exec (handler base net e) s)) <> None)
  /\ (forall h, gameId (fold_left (step base) h s) <> None).
Proof.
  intros H.
  split; [intros p; apply adopt_has_gameId; exact H |].
  split.
  { intros p Hid. destruct (id_throws p) eqn:Hthrow.
    - rewrite (adopt_throws p s Hthrow). reflexivity.
    - rewrite (adopt_fields p s Hthrow). cbn. rewrite Hid. reflexivity. }
  split.
  - intros e net.
    apply (preserves_step has_gameId) with (en := (e, net)) (base := base);
      try exact H; intros; try apply adopt_has_gameId; assumption.
  - intros h.
    apply (preserves_history has_gameId);
      intros; try apply adopt_has_gameId; assumption.
Qed.

(** A failing reset and an adoption of the empty object on the state the
    scenario reaches after its first move. *)
Definition net_down : Network := fun _ => Rejects (WithMessage "Network request failed").

Lemma gameId_never_reset_witness :
  gameId (adopt (Obj []) scenario2) <> None
  /\ gameId (fold_left (step "http://h/api")
               [(ResetPressed, net_down); (CellPressed 0, net_down)] scenario2)
     <> None.
Proof.
  assert (H : gameId scenario2 <> None) by (vm_compute; discriminate).
  destruct (gameId_never_reset "http://h/api" scenario2 H) as (Ha & _ & _ & Hh).
  split; [apply Ha | apply Hh].
Defined.

(** ** C7: a failed health check *)

(** The state an operation leaves when it ends with the message [msg] and
    has adopted nothing. *)
Definition settled (s : State) (msg : string) : State :=
  {| gameId := gameId s; board := board s; nextPlayer := nextPlayer s;
     winner := winner s; isDraw := isDraw s;
     isLoading := false; statusMessage := msg |}.

(** C7: when the health check is answered with a non-success status, the
    mount effect of the mounted component records an error message, sends
    no create-game request (the health request is the only one sent) and
    leaves [gameId] as it was, [null] at mount; on the resulting state
    every cell press is a no-op. *)
Theorem init_health_check_failed
    (base : string) (net : Network) (s : State) (h : Response) :
  net (health_request base) = Resolves h ->
  ok h = false ->
  gameId s = None ->
  let s' := fst (exec (init base net true) s) in
  exec (init base net true) s
  = (settled s ("Error: Health check failed: " ++ Str.of_N (status h)),
     [health_request base])
  /\ Str.startsWith (statusMessage s') "Error:" = true
  /\ ~ In (create_request base) (snd (exec (init base net true) s))
  /\ gameId s' = None
  /\ (forall net' index, exec (onCellPress base net' index) s' = (s', [])).
Proof.
  intros Hnet Hok Hid.
  assert (E : exec (init base net true) s
              = (settled s ("Error: Health check failed: " ++ Str.of_N (status h)),
                 [health_request base])).
  { unfold exec, init, fetch. unfold_monad. cbn.
    rewrite Hnet. cbn. rewrite Hok. cbn. reflexivity. }
  cbn zeta. rewrite E. cbn [fst snd].
  split; [reflexivity |].
  split; [reflexivity |].
  split.
  { intros [Hin | []]. discriminate Hin. }
  split; [exact Hid |].
  intros net' index. apply onCellPress_returns_early. right; left.
  unfold no_gameId. cbn [settled gameId]. rewrite Hid. reflexivity.
Qed.

Definition net_unhealthy : Network :=
  fun _ => Resolves {| status := 503; text := Some "unavailable";
                       json := Threw (WithMessage "Unexpected token") |}.

Lemma init_health_check_failed_witness :
  exec (init "http://h/api" net_unhealthy true) initial
  = (settled initial "Error: Health check failed: 503",
     [health_request "http://h/api"]).
Proof.
  apply (init_health_check_failed "http://h/api" net_unhealthy initial
           {| status := 503; text := Some "unavailable";
              json := Threw (WithMessage "Unexpected token") |});
    reflexivity.
Defined.

(** ** C2: non-success responses *)

Arguments updateFromPayload : simpl never.
Arguments adopt : simpl never.

Lemma not_2xx (r : Response) :
  (status r < 200 \/ 299 < status r)%N -> ok r = false.
Proof.
  intros H. unfold ok. apply andb_false_iff.
  destruct H as [H | H]; [left; apply N.leb_gt | right; apply N.leb_gt]; exact H.
Qed.

(** C2: when an operation of the mounted component has sent a request and
    the backend answered it with a status outside 200..299, the operation
    leaves [board], [winner] and [isDraw] unchanged and ends with a status
    message that starts with "Error:".  The operations are the mount effect
    (create-game, and the health check before it), a cell press (move) and
    a reset. *)
Theorem non_success_response_is_reported
    (base : string) (net : Network) (e : Event) (s : State)
    (rq : Request) (r : Response) :
  e <> Mounted false ->
  In rq (snd (exec (handler base net e) s)) ->
  net rq = Resolves r ->
  (status r < 200 \/ 299 < status r)%N ->
  let s' := fst (exec (handler base net e) s) in
  board s' = board s
  /\ winner s' = winner s
  /\ isDraw s' = isDraw s
  /\ Str.startsWith (statusMessage s') "Error:" = true.
Proof.
  intros Hm Hin Hnet Hst. apply not_2xx in Hst. cbn zeta. revert Hin.
  destruct e as [m | index |]; cbn [handler].
  - destruct m; [| contradiction Hm; reflexivity].
    unfold exec, init, fetch. unfold_monad. cbn.
    destruct (net (health_request base)) as [eh | h] eqn:Hh; cbn.
    { intros [<- | []]. congruence. }
    destruct (ok h) eqn:Hokh; cbn; [| intros _; repeat split; reflexivity].
    destruct (net (create_request base)) as [ec | c] eqn:Hc; cbn.
    { intros [<- | [<- | []]]; congruence. }
    destruct (ok c) eqn:Hokc; cbn; [| intros _; repeat split; reflexivity].
    destruct (json c) as [p | ej]; cbn;
      [rewrite updateFromPayload_view; cbn |];
      intros [<- | [<- | []]]; congruence.
  - unfold exec, onCellPress, fetch. unfold_monad. cbn.
    destruct (canPlay s); cbn; [| intros []].
    destruct (no_gameId s); cbn; [intros [] |].
    destruct (JS.not_null (cell_at (board s) index)); cbn; [intros [] |].
    match goal with |- context [net ?q] => destruct (net q) as [em | a] eqn:Ha end; cbn.
    { intros [<- | []]. congruence. }
    destruct (ok a) eqn:Hoka; cbn; [| intros _; repeat split; reflexivity].
    destruct (json a) as [p | ej]; cbn;
      [rewrite updateFromPayload_view; cbn |];
      intros [<- | []]; congruence.
  - unfold exec, onReset, fetch. unfold_monad. cbn.
    destruct (no_gameId s); cbn; [intros [] |].
    match goal with |- context [net ?q] => destruct (net q) as [em | a] eqn:Ha end; cbn.
    { intros [<- | []]. congruence. }
    destruct (ok a) eqn:Hoka; cbn; [| intros _; repeat split; reflexivity].
    destruct (json a) as [p | ej]; cbn;
      [rewrite updateFromPayload_view; cbn |];
      intros [<- | []]; congruence.
Qed.

Definition error_500 : Response :=
  {| status := 500; text := Some "Internal Server Error";
     json := Threw (WithMessage "Unexpected token") |}.

(** A backend that is healthy and fails every POST with status 500. *)
Definition net_post_fails : Network :=
  fun rq => if String.eqb (method rq) "GET" then respond Null
            else Resolves error_500.

Example move_rejected_message :
  statusMessage (fst (exec (onCellPress "http://h/api" net_post_fails 4) scenario1))
  = "Error: Move failed: 500 Internal Server Error".
Proof. reflexivity. Qed.

Lemma non_success_response_is_reported_witness :
  (let s' := fst (exec (handler "http://h/api" net_post_fails (Mounted true)) initial) in
   board s' = board initial /\ winner s' = winner initial
   /\ isDraw s' = isDraw initial
   /\ Str.startsWith (statusMessage s') "Error:" = true)
  /\ (let s' := fst (exec (handler "http://h/api" net_post_fails (CellPressed 4))
                          scenario1) in
      board s' = board scenario1 /\ winner s' = winner scenario1
      /\ isDraw s' = isDraw scenario1
      /\ Str.startsWith (statusMessage s') "Error:" = true)
  /\ (let s' := fst (exec (handler "http://h/api" net_post_fails ResetPressed)
                          scenario2) in
      board s' = board scenario2 /\ winner s' = winner scenario2
      /\ isDraw s' = isDraw scenario2
      /\ Str.startsWith (statusMessage s') "Error:" = true).
Proof.
  split; [| split].
  - apply (non_success_response_is_reported "http://h/api" net_post_fails
             (Mounted true) initial (create_request "http://h/api") error_500);
      [discriminate | vm_compute; right; left; reflexivity
      | vm_compute; reflexivity | right; reflexivity].
  - apply (non_success_response_is_reported "http://h/api" net_post_fails
             (CellPressed 4) scenario1 (move_request "http://h/api" "g1" 4) error_500);
      [discriminate | vm_compute; left; reflexivity
      | vm_compute; reflexivity | right; reflexivity].
  - apply (non_success_response_is_reported "http://h/api" net_post_fails
             ResetPressed scenario2 (reset_request "http://h/api" "g1") error_500);
      [discriminate | vm_compute; left; reflexivity
      | vm_compute; reflexivity | right; reflexivity].
Defined.

(** ** C8: what is rendered after a successful create-game *)

Lemma truthy_nullish_or (v : value) :
  JS.truthy (JS.nullish_or v Null) = JS.truthy v.
Proof. destruct v; reflexivity. Qed.

(** The mount effect when both requests succeed and the body parses. *)
Lemma init_success
    (base : string) (net : Network) (s : State) (h c : Response) (p : value) :
  net (health_request base) = Resolves h -> ok h = true ->
  net (create_request base) = Resolves c -> ok c = true ->
  json c = Returned p ->
  exec (init base net true) s
  = (settled (adopt p s) "Game ready!", [health_request base; create_request base]).
Proof.
  intros Hh Hokh Hc Hokc Hj.
  unfold exec, init, fetch. unfold_monad. cbn.
  rewrite Hh. cbn. rewrite Hokh. cbn. rewrite Hc. cbn. rewrite Hokc. cbn.
  rewrite Hj. cbn. rewrite updateFromPayload_view. cbn.
  f_equal. unfold settled.
  destruct (id_throws p) eqn:Hthrow.
  - rewrite !(adopt_throws p _ Hthrow). reflexivity.
  - rewrite !(adopt_fields p _ Hthrow). reflexivity.
Qed.

(** A create-game response that is successful and carries a valid board,
    and an [id] that [String] cannot convert. *)
Definition net_bad_id : Network := fun _ => respond payload_bad_id.

(** C8, as stated, does not hold for every successful create-game response
    with a valid board: when the conversion of the response's [id] throws,
    adoption is abandoned and the grid still shows the previous board, here
    nine empty cells where the response has an X in the middle. *)
Lemma grid_not_updated_when_id_throws :
  net_bad_id (create_request "http://h/api") = respond payload_bad_id
  /\ valid_board payload_bad_id = true
  /\ rendered_cells (fst (exec (init "http://h/api" net_bad_id true) initial))
     = repeat "⬜️" 9
  /\ rendered_cells (fst (exec (init "http://h/api" net_bad_id true) initial))
     <> map toEmoji board_x4.
Proof.
  repeat split. vm_compute. discriminate.
Qed.

(** C8 (amended): after a successful create-game response whose payload
    carries a valid 9-element board and whose [id] does not make the
    conversion to a string throw, the mounted component shows 9 cells, each
    the fixed symbol of its entry in that board ('X' as the cross, 'O' as
    the circle, anything else as the empty square); and when the payload
    reports no winner and no draw, the status line shows the turn of the
    next player, "Turn: " followed by the cross when [nextPlayer] is 'X'
    and by the circle otherwise. *)
Theorem create_success_renders_board
    (base : string) (net : Network) (s : State)
    (h c : Response) (p : value) (b : list value) :
  net (health_request base) = Resolves h -> ok h = true ->
  net (create_request base) = Resolves c -> ok c = true ->
  json c = Returned p ->
  JS.get p "board" = Arr b ->
  length b = 9 ->
  id_throws p = false ->
  let s' := fst (exec (init base net true) s) in
  rendered_cells s' = map toEmoji b
  /\ length (rendered_cells s') = 9
  /\ (forall i, i < 9 -> nth i (rendered_cells s') "" = toEmoji (nth i b Undefined))
  /\ (toEmoji (Str "X") = "❌" /\ toEmoji (Str "O") = "⭕️" /\ toEmoji Null = "⬜️")
  /\ (JS.truthy (JS.get p "winner") = false ->
      JS.truthy (JS.get p "isDraw") = false ->
      computedStatus s'
      = "Turn: " ++ (if String.eqb (nextPlayer s') "X" then "❌" else "⭕️")
      /\ (JS.get p "nextPlayer" = Str "X" -> computedStatus s' = "Turn: ❌")
      /\ (JS.get p "nextPlayer" = Str "O" -> computedStatus s' = "Turn: ⭕️")).
Proof.
  intros Hh Hokh Hc Hokc Hj Hb Hlen Hthrow. cbn zeta.
  rewrite (init_success base net s h c p Hh Hokh Hc Hokc Hj). cbn [fst].
  assert (Hboard : board (settled (adopt p s) "Game ready!") = b).
  { rewrite (adopt_fields p s Hthrow). cbn. unfold valid_board.
    rewrite Hb. cbn. rewrite Hlen. reflexivity. }
  unfold rendered_cells. rewrite Hboard.
  split; [reflexivity |].
  split; [rewrite length_map; exact Hlen |].
  split.
  { intros i Hi.
    rewrite (nth_indep (map toEmoji b) "" (toEmoji Undefined))
      by (rewrite length_map, Hlen; exact Hi).
    apply map_nth. }
  split; [repeat split |].
  intros Hw Hd.
  unfold computedStatus. rewrite (adopt_fields p s Hthrow). cbn.
  rewrite truthy_nullish_or, Hw, Hd.
  split; [reflexivity |].
  unfold valid_nextPlayer.
  split; intros Hn; rewrite Hn; reflexivity.
Qed.

Lemma create_success_renders_board_witness :
  rendered_cells scenario1 = map toEmoji (repeat Null 9)
  /\ computedStatus scenario1 = "Turn: ❌".
Proof.
  destruct (create_success_renders_board "http://h/api" net_create initial
              {| status := 200; text := None; json := Returned payload_g1 |}
              {| status := 200; text := None; json := Returned payload_g1 |}
              payload_g1 (repeat Null 9)
              eq_refl eq_refl eq_refl eq_refl eq_refl eq_refl eq_refl eq_refl)
    as (Hcells & _ & _ & _ & Hstatus).
  split; [exact Hcells |].
  apply Hstatus; reflexivity.
Defined.

(** ** C6: the API base *)

Module StrFacts.

Lemma app_assoc (a b c : string) : (a ++ b) ++ c = a ++ (b ++ c).
Proof. induction a as [| x a IH]; cbn; [reflexivity | rewrite IH; reflexivity]. Qed.

Lemma app_empty_r (a : string) : a ++ "" = a.
Proof. induction a as [| x a IH]; cbn; [reflexivity | rewrite IH; reflexivity]. Qed.

Lemma rev_acc_app (s acc : string) : Str.rev_acc s acc = Str.rev s ++ acc.
Proof.
  unfold Str.rev. revert acc.
  induction s as [| c s IH]; intros acc; cbn; [reflexivity |].
  rewrite (IH (String c acc)), (IH (String c "")), app_assoc. reflexivity.
Qed.

Lemma rev_cons (c : ascii) (s : string) :
  Str.rev (String c s) = Str.rev s ++ String c "".
Proof. unfold Str.rev at 1. cbn. apply rev_acc_app. Qed.

Lemma rev_app (a b : string) : Str.rev (a ++ b) = Str.rev b ++ Str.rev a.
Proof.
  induction a as [| c a IH]; cbn [append].
  - rewrite app_empty_r. reflexivity.
  - rewrite !rev_cons, IH, app_assoc. reflexivity.
Qed.

Lemma rev_involutive (s : string) : Str.rev (Str.rev s) = s.
Proof.
  induction s as [| c s IH]; [reflexivity |].
  rewrite rev_cons, rev_app, IH. reflexivity.
Qed.

Lemma prefix_iff (p s : string) :
  String.prefix p s = true <-> exists t, s = p ++ t.
Proof.
  revert s. induction p as [| c p IH]; intros s.
  - split; [intros _; exists s; reflexivity | intros _; destruct s; reflexivity].
  - destruct s as [| d s]; cbn;
      [split; [discriminate | intros [t Ht]; discriminate] |].
    destruct (ascii_dec c d) as [-> | Hne].
    + rewrite IH. split; intros [t Ht]; exists t; congruence.
    + split; [discriminate | intros [t Ht]; congruence].
Qed.

(** [s.endsWith(p)] holds exactly when [s] is some string followed by [p]. *)
Lemma endsWith_iff (s p : string) :
  Str.endsWith s p = true <-> exists pre, s = pre ++ p.
Proof.
  unfold Str.endsWith. rewrite prefix_iff. split.
  - intros [t Ht]. exists (Str.rev t).
    rewrite <- (rev_involutive s), Ht, rev_app, rev_involutive. reflexivity.
  - intros [pre ->]. exists (Str.rev pre). apply rev_app.
Qed.

(** A run of [k] slashes. *)
Fixpoint slashes (k : nat) : string :=
  match k with
  | O => ""
  | S k' => String Str.slash (slashes k')
  end.

Lemma rev_slashes (k : nat) : Str.rev (slashes k) = slashes k.
Proof.
  induction k as [| k IH]; [reflexivity |].
  cbn [slashes]. rewrite rev_cons, IH. clear IH.
  induction k as [| k IH]; [reflexivity |].
  cbn [slashes append]. f_equal. exact IH.
Qed.

Lemma drop_slashes_spec (s : string) :
  exists k, s = slashes k ++ Str.drop_slashes s
            /\ String.prefix "/" (Str.drop_slashes s) = false.
Proof.
  induction s as [| c s (k & Hk & Hp)].
  - exists 0. split; reflexivity.
  - cbn [Str.drop_slashes]. destruct (Ascii.eqb c Str.slash) eqn:Hc.
    + apply Ascii.eqb_eq in Hc. subst c. exists (S k). cbn [slashes append].
      split; [f_equal; exact Hk | exact Hp].
    + exists 0. split; [reflexivity |]. cbn [String.prefix].
      destruct (ascii_dec "/" c) as [<- | _]; [| reflexivity].
      unfold Str.slash in Hc. rewrite Ascii.eqb_refl in Hc. discriminate Hc.
Qed.

(** [s.replace(/\/+$/, '')] removes a run of slashes from the end and
    leaves a string that does not end with a slash. *)
Lemma strip_trailing_slashes_spec (s : string) :
  exists k, s = Str.strip_trailing_slashes s ++ slashes k
            /\ Str.endsWith (Str.strip_trailing_slashes s) "/" = false.
Proof.
  unfold Str.strip_trailing_slashes, Str.endsWith.
  destruct (drop_slashes_spec (Str.rev s)) as (k & Hk & Hp).
  exists k. split.
  - rewrite <- (rev_involutive s) at 1. rewrite Hk at 1.
    rewrite rev_app, rev_slashes. reflexivity.
  - rewrite rev_involutive. exact Hp.
Qed.

End StrFacts.

Definition fallback_url : string := "http://localhost:3001".

(** The URL the resolution starts from: the environment's when it is set
    and not blank, the local-host fallback otherwise. *)
Definition chosen_url (fromEnv : option string) : string :=
  match fromEnv with
  | Some e => if Str.nonempty (Str.trim e) then e else fallback_url
  | None => fallback_url
  end.

Lemma API_BASE_chosen (fromEnv : option string) :
  API_BASE fromEnv
  = if Str.endsWith (chosen_url fromEnv) "/api" then chosen_url fromEnv
    else Str.strip_trailing_slashes (chosen_url fromEnv) ++ "/api".
Proof.
  unfold API_BASE, chosen_url, fallback_url.
  destruct fromEnv as [[| c e] |]; reflexivity.
Qed.

(** C6: the API base is resolved from the environment's URL when one is
    set and not empty after trimming, and from the local-host fallback
    otherwise.  When the chosen URL already ends with "/api" it is returned
    unchanged; otherwise its trailing slashes are removed and "/api" is
    appended.  Either way the result ends with "/api". *)
Theorem API_BASE_resolution (fromEnv : option string) :
  (forall e, fromEnv = Some e -> Str.trim e <> "" -> chosen_url fromEnv = e)
  /\ (forall e, fromEnv = Some e -> Str.trim e = "" -> chosen_url fromEnv = fallback_url)
  /\ (fromEnv = None -> chosen_url fromEnv = fallback_url)
  /\ ((exists pre, chosen_url fromEnv = pre ++ "/api") ->
      API_BASE fromEnv = chosen_url fromEnv)
  /\ (~ (exists pre, chosen_url fromEnv = pre ++ "/api") ->
      exists stem k,
        chosen_url fromEnv = stem ++ StrFacts.slashes k
        /\ Str.endsWith stem "/" = false
        /\ API_BASE fromEnv = stem ++ "/api")
  /\ Str.endsWith (API_BASE fromEnv) "/api" = true.
Proof.
  split; [| split; [| split]].
  - intros e -> Hne. cbn. destruct (Str.trim e); [contradiction Hne; reflexivity | reflexivity].
  - intros e -> He. cbn. rewrite He. reflexivity.
  - intros ->. reflexivity.
  - rewrite API_BASE_chosen.
    destruct (Str.endsWith (chosen_url fromEnv) "/api") eqn:Hends.
    + apply StrFacts.endsWith_iff in Hends.
      split; [reflexivity |]. split; [intros Hn; contradiction |].
      apply StrFacts.endsWith_iff. exact Hends.
    + assert (Hn : ~ (exists pre, chosen_url fromEnv = pre ++ "/api")).
      { intros H. apply StrFacts.endsWith_iff in H. congruence. }
      split; [intros H; contradiction |].
      split.
      * intros _.
        destruct (StrFacts.strip_trailing_slashes_spec (chosen_url fromEnv))
          as (k & Hk & Hs).
        exists (Str.strip_trailing_slashes (chosen_url fromEnv)), k.
        repeat split; assumption.
      * apply StrFacts.endsWith_iff. eexists. reflexivity.
Qed.

Example API_BASE_unset : API_BASE None = "http://localhost:3001/api".
Proof. reflexivity. Qed.
Example API_BASE_blank : API_BASE (Some "   ") = "http://localhost:3001/api".
Proof. reflexivity. Qed.
Example API_BASE_with_api : API_BASE (Some "https://b.example/api") = "https://b.example/api".
Proof. reflexivity. Qed.
Example API_BASE_slashes : API_BASE (Some "https://b.example//") = "https://b.example/api".
Proof. reflexivity. Qed.
Example API_BASE_api_slash : API_BASE (Some "https://b.example/api/") = "https://b.example/api/api".
Proof. reflexivity. Qed.

Lemma API_BASE_resolution_witness :
  API_BASE (Some "https://b.example/api") = "https://b.example/api"
  /\ chosen_url (Some "https://b.example//") = "https://b.example//".
Proof.
  split.
  - destruct (API_BASE_resolution (Some "https://b.example/api")) as (_ & _ & _ & H & _).
    apply H. exists "https://b.example". reflexivity.
  - destruct (API_BASE_resolution (Some "https://b.example//")) as (H & _).
    apply H; [reflexivity | vm_compute; discriminate].
Defined.


(** * Further properties of the component *)

(** ** What an operation that passed its guards does

    The final state and the request log of a cell press and of a reset, by
    the answer of the backend. *)

(** How a response to a move or reset request ends the operation; [what]
    is "Move" or "Reset" and [done] the message of the success path. *)
Definition concluded (what done : string) (s : State) (a : FetchResult) : State :=
  match a with
  | Rejects e => settled s ("Error: " ++ message_of e (what ++ " failed"))
  | Resolves r =>
      if ok r then
        match json r with
        | Returned p => settled (adopt p s) done
        | Threw e => settled s ("Error: " ++ message_of e (what ++ " failed"))
        end
      else
        settled s
          ("Error: " ++ Str.trim (what ++ " failed: " ++ Str.of_N (status r) ++ " "
                                       ++ match text r with Some t => t | None => "" end))
  end.

Lemma settled_adopt (p : value) (s : State) (l : bool) (m done : string) :
  settled
    (adopt p {| gameId := gameId s; board := board s; nextPlayer := nextPlayer s;
                winner := winner s; isDraw := isDraw s;
                isLoading := l; statusMessage := m |}) done
  = settled (adopt p s) done.
Proof.
  unfold settled. destruct (id_throws p) eqn:Hthrow.
  - rewrite !(adopt_throws p _ Hthrow). reflexivity.
  - rewrite !(adopt_fields p _ Hthrow). reflexivity.
Qed.

Lemma onCellPress_sent
    (base : string) (net : Network) (index : Z) (s : State) (g : string) :
  canPlay s = true ->
  gameId s = Some g ->
  Str.nonempty g = true ->
  JS.not_null (cell_at (board s) index) = false ->
  exec (onCellPress base net index) s
  = (concluded "Move" "Move accepted." s (net (move_request base g index)),
     [move_request base g index]).
Proof.
  intros Hplay Hg Hne Hcell.
  unfold exec, onCellPress, fetch, concluded. unfold_monad. cbn.
  rewrite Hplay. cbn. unfold no_gameId. rewrite Hg, Hne, Hcell. cbn.
  destruct (net (move_request base g index)) as [e | r]; cbn; [reflexivity |].
  destruct (ok r); cbn; [| reflexivity].
  destruct (json r) as [p | e]; cbn; [| reflexivity].
  rewrite updateFromPayload_view. cbn.
  f_equal. fold (settled
    (adopt p {| gameId := gameId s; board := board s; nextPlayer := nextPlayer s;
                winner := winner s; isDraw := isDraw s;
                isLoading := true; statusMessage := "Submitting move..." |})
    "Move accepted.").
  apply settled_adopt.
Qed.

Lemma onReset_sent (base : string) (net : Network) (s : State) (g : string) :
  gameId s = Some g ->
  Str.nonempty g = true ->
  exec (onReset base net) s
  = (concluded "Reset" "Game reset." s (net (reset_request base g)),
     [reset_request base g]).
Proof.
  intros Hg Hne.
  unfold exec, onReset, fetch, concluded. unfold_monad. cbn.
  unfold no_gameId. rewrite Hg, Hne. cbn.
  destruct (net (reset_request base g)) as [e | r]; cbn; [reflexivity |].
  destruct (ok r); cbn; [| reflexivity].
  destruct (json r) as [p | e]; cbn; [| reflexivity].
  rewrite updateFromPayload_view. cbn.
  f_equal. fold (settled
    (adopt p {| gameId := gameId s; board := board s; nextPlayer := nextPlayer s;
                winner := winner s; isDraw := isDraw s;
                isLoading := true; statusMessage := "Resetting game..." |})
    "Game reset.").
  apply settled_adopt.
Qed.

(** ** The rendered controls *)

(** The colours of the style guide ([theme]). *)
Definition theme_error : string := "#F44336".
Definition theme_text : string := "#212121".

(** The [disabled] flag of a grid cell showing [cell]. *)
Definition cell_disabled (s : State) (cell : value) : bool :=
  isLoading s || negb (canPlay s) || JS.not_null cell.

(** The [disabled] flag of the reset button. *)
Definition reset_disabled (s : State) : bool :=
  isLoading s || no_gameId s.

(** The line under the status, when it is rendered
    ([!!statusMessage && !isLoading]): its text and its colour. *)
Definition sub_status (s : State) : option (string * string) :=
  if Str.nonempty (statusMessage s) && negb (isLoading s)
  then Some (statusMessage s,
             if Str.startsWith (statusMessage s) "Error" then theme_error
             else theme_text)
  else None.

(** ** Reset *)

(** X1: without a game id ([null] or the empty string) a reset sends no
    request and changes no state. *)
Theorem onReset_without_game (base : string) (net : Network) (s : State) :
  no_gameId s = true ->
  exec (onReset base net) s = (s, []).
Proof.
  intros H. unfold exec, onReset. unfold_monad. cbn. rewrite H. reflexivity.
Qed.

Lemma onReset_without_game_witness :
  exec (onReset "http://h/api" net_create) initial = (initial, []).
Proof.
  apply (onReset_without_game "http://h/api" net_create initial). reflexivity.
Defined.

(** X2: a reset sends a request exactly when a game id exists; it is then
    the only request, a POST to [<base>/games/<id>/reset/] without a body.
    The handler looks at nothing else: it sends also while a request is
    in flight or after the game has ended. *)
Theorem onReset_sends_iff_game (base : string) (net : Network) (s : State) :
  (snd (exec (onReset base net) s) <> [] <-> no_gameId s = false)
  /\ (forall g, gameId s = Some g -> g <> "" ->
        snd (exec (onReset base net) s)
        = [ {| method := "POST"; url := base ++ "/games/" ++ g ++ "/reset/";
               headers := [("Content-Type", "application/json")];
               body := None |} ]).
Proof.
  split.
  - unfold no_gameId. destruct (gameId s) as [g |] eqn:Hg.
    + destruct (Str.nonempty g) eqn:Hne.
      * rewrite (onReset_sent base net s g Hg Hne). cbn.
        split; [reflexivity | discriminate].
      * unfold exec, onReset. unfold_monad. cbn. unfold no_gameId.
        rewrite Hg, Hne. cbn. split; [intros H; contradiction | discriminate].
    + unfold exec, onReset. unfold_monad. cbn. unfold no_gameId.
      rewrite Hg. cbn. split; [intros H; contradiction | discriminate].
  - intros g Hg Hne.
    assert (Hn : Str.nonempty g = true) by (destruct g; [contradiction | reflexivity]).
    rewrite (onReset_sent base net s g Hg Hn). reflexivity.
Qed.

(** The game is over and a request is in flight: the reset is sent all the
    same. *)
Definition x_won_loading : State :=
  {| gameId := gameId x_won; board := board x_won; nextPlayer := nextPlayer x_won;
     winner := winner x_won; isDraw := isDraw x_won;
     isLoading := true; statusMessage := "Submitting move..." |}.

Lemma onReset_sends_iff_game_witness :
  snd (exec (onReset "http://h/api" net_create) x_won_loading)
  = [ {| method := "POST"; url := "http://h/api/games/g1/reset/";
         headers := [("Content-Type", "application/json")]; body := None |} ].
Proof.
  destruct (onReset_sends_iff_game "http://h/api" net_create x_won_loading) as [_ H].
  apply (H "g1"); [reflexivity | discriminate].
Defined.

(** ** Cell presses *)

(** X3: a cell press sends a request exactly when all three guards pass
    (playable, a game id, [board[index]] is [null]); it is then the only
    request, a POST to [<base>/games/<id>/move/] whose body is
    [{"index":<index>}]. *)
Theorem onCellPress_sends_iff_guards
    (base : string) (net : Network) (index : Z) (s : State) :
  (snd (exec (onCellPress base net index) s) <> [] <->
   canPlay s = true /\ no_gameId s = false
   /\ cell_at (board s) index = Null)
  /\ (forall g, gameId s = Some g -> g <> "" -> canPlay s = true ->
        cell_at (board s) index = Null ->
        snd (exec (onCellPress base net index) s)
        = [ {| method := "POST"; url := base ++ "/games/" ++ g ++ "/move/";
               headers := [("Content-Type", "application/json")];
               body := Some ("{" ++ dquote ++ "index" ++ dquote ++ ":"
                                 ++ NilZero.string_of_int (Z.to_int index) ++ "}") |} ]).
Proof.
  assert (Hsent : forall g, gameId s = Some g -> Str.nonempty g = true ->
            canPlay s = true -> cell_at (board s) index = Null ->
            snd (exec (onCellPress base net index) s) = [move_request base g index]).
  { intros g Hg Hn Hplay Hcell.
    rewrite (onCellPress_sent base net index s g Hplay Hg Hn); [reflexivity |].
    rewrite Hcell. reflexivity. }
  split.
  - split.
    + intros Hcalls.
      destruct (canPlay s) eqn:Hplay.
      * destruct (no_gameId s) eqn:Hno.
        -- contradiction Hcalls.
           rewrite (onCellPress_returns_early base net index s);
             [reflexivity | right; left; exact Hno].
        -- destruct (cell_at (board s) index) eqn:Hcell;
             try (contradiction Hcalls;
                  rewrite (onCellPress_returns_early base net index s);
                  [reflexivity | right; right; rewrite Hcell; reflexivity]).
           repeat split.
      * contradiction Hcalls.
        rewrite (onCellPress_returns_early base net index s);
          [reflexivity | left; exact Hplay].
    + intros (Hplay & Hno & Hcell). unfold no_gameId in Hno.
      destruct (gameId s) as [g |] eqn:Hg; [| discriminate].
      destruct (Str.nonempty g) eqn:Hn; [| discriminate].
      rewrite (Hsent g eq_refl Hn Hplay Hcell). discriminate.
  - intros g Hg Hne Hplay Hcell.
    assert (Hn : Str.nonempty g = true) by (destruct g; [contradiction | reflexivity]).
    rewrite (Hsent g Hg Hn Hplay Hcell). reflexivity.
Qed.

Lemma onCellPress_sends_iff_guards_witness :
  snd (exec (onCellPress "http://h/api" net_move4 4) scenario1)
  = [ {| method := "POST"; url := "http://h/api/games/g1/move/";
         headers := [("Content-Type", "application/json")];
         body := Some ("{" ++ dquote ++ "index" ++ dquote ++ ":4}") |} ].
Proof.
  destruct (onCellPress_sends_iff_guards "http://h/api" net_move4 4 scenario1)
    as [_ H].
  apply (H "g1"); [reflexivity | discriminate | reflexivity | reflexivity].
Defined.

(** X4: the grid and the handler agree.  For the cell at position [i] of
    the board: when the cell is rendered disabled its handler does nothing;
    when it is rendered enabled and a game id exists, its handler sends
    exactly one request. *)
Theorem disabled_cell_agrees_with_handler
    (base : string) (net : Network) (s : State) (i : nat) (cell : value) :
  nth_error (board s) i = Some cell ->
  (cell_disabled s cell = true ->
   exec (onCellPress base net (Z.of_nat i)) s = (s, []))
  /\ (cell_disabled s cell = false -> no_gameId s = false ->
      length (snd (exec (onCellPress base net (Z.of_nat i)) s)) = 1).
Proof.
  intros Hnth.
  assert (Hcell : cell_at (board s) (Z.of_nat i) = cell).
  { unfold cell_at. destruct (Z.of_nat i <? 0)%Z eqn:Hneg;
      [apply Z.ltb_lt in Hneg; lia |].
    rewrite Nat2Z.id. apply nth_error_nth. exact Hnth. }
  unfold cell_disabled. split.
  - intros Hd. apply onCellPress_returns_early. rewrite Hcell.
    destruct (isLoading s) eqn:Hl.
    + left. apply canPlay_false. left. exact Hl.
    + destruct (canPlay s) eqn:Hplay; [| left; reflexivity].
      right; right. exact Hd.
  - intros Hd Hno.
    destruct (isLoading s) eqn:Hl; [discriminate Hd |].
    destruct (canPlay s) eqn:Hplay; [| discriminate Hd].
    cbn in Hd. unfold no_gameId in Hno.
    destruct (gameId s) as [g |] eqn:Hg; [| discriminate].
    destruct (Str.nonempty g) eqn:Hn; [| discriminate].
    rewrite (onCellPress_sent base net (Z.of_nat i) s g Hplay Hg Hn);
      [reflexivity | rewrite Hcell; exact Hd].
Qed.

Lemma disabled_cell_agrees_with_handler_witness :
  exec (onCellPress "http://h/api" net_move4 (Z.of_nat 4)) scenario2 = (scenario2, [])
  /\ length (snd (exec (onCellPress "http://h/api" net_move4 (Z.of_nat 0)) scenario2)) = 1.
Proof.
  split.
  - apply (disabled_cell_agrees_with_handler "http://h/api" net_move4 scenario2 4
             (Str "X")); reflexivity.
  - apply (disabled_cell_agrees_with_handler "http://h/api" net_move4 scenario2 0
             Null); reflexivity.
Defined.

(** ** Outcomes of the operations *)

(** The five fields that describe the game agree. *)
Definition same_game (a b : State) : Prop :=
  gameId a = gameId b /\ board a = board b /\ nextPlayer a = nextPlayer b
  /\ winner a = winner b /\ isDraw a = isDraw b.

Lemma same_game_refl (s : State) : same_game s s.
Proof. repeat split. Qed.

(** The message a handler falls back on when the thrown value carries none. *)
Definition fallback_message (e : Event) : string :=
  match e with
  | Mounted _ => "Unable to connect to backend"
  | CellPressed _ => "Move failed"
  | ResetPressed => "Reset failed"
  end.

(** Case analysis on the answers of the backend along an operation. *)
Ltac by_answers net :=
  repeat match goal with
    | |- context [net ?q] =>
        let a := fresh "answer" in destruct (net q) as [? | ?] eqn:a; cbn
    | |- context [ok ?r] =>
        let a := fresh "status_ok" in destruct (ok r) eqn:a; cbn
    | |- context [json ?r] =>
        let a := fresh "parsed" in destruct (json r) as [? | ?] eqn:a; cbn
    | |- context [updateFromPayload ?p ?w] =>
        rewrite (updateFromPayload_view p w); cbn
    end.

(** X5: no operation ever throws: whatever the backend answers (a
    rejected request, any status, an unreadable body, any payload) the
    mount effect, a cell press and a reset run to their end, and so does
    payload adoption. *)
Theorem operations_never_throw
    (base : string) (net : Network) (e : Event) (p : value) (w : World) :
  fst (handler base net e w) = Returned tt
  /\ fst (updateFromPayload p w) = Returned tt.
Proof.
  split; [| rewrite updateFromPayload_view; reflexivity].
  destruct w as [s c].
  destruct e as [[|] | index |]; cbn [handler];
    unfold init, onCellPress, onReset, fetch; unfold_monad; cbn.
  - by_answers net; reflexivity.
  - by_answers net; reflexivity.
  - destruct (canPlay s); cbn; [| reflexivity].
    destruct (no_gameId s); cbn; [reflexivity |].
    destruct (JS.not_null (cell_at (board s) index)); cbn; [reflexivity |].
    by_answers net; reflexivity.
  - destruct (no_gameId s); cbn; [reflexivity |].
    by_answers net; reflexivity.
Qed.



(** Ends a case of an operation's run: the request of the hypothesis is
    one of those sent; either its recorded answer contradicts the
    hypothesis, or the goal is read off the final state. *)
Ltac close_case :=
  let Hin := fresh "Hin" in
  intros Hin; cbn in Hin;
  repeat match type of Hin with
    | _ \/ _ => destruct Hin as [Hin | Hin]
    end;
  try contradiction; subst;
  try congruence;
  repeat match goal with
    | H1 : ?n ?q = Rejects _, H2 : ?n ?q = Rejects _ |- _ =>
        rewrite H1 in H2; injection H2 as H2; subst
    | H1 : ?n ?q = Resolves _, H2 : ?n ?q = Resolves _ |- _ =>
        rewrite H1 in H2; injection H2 as H2; subst
    end;
  try congruence;
  repeat split;
  try reflexivity;
  try congruence;
  try (exists []; reflexivity);
  try (eexists [_]; reflexivity).

(** X7: when a request of an operation of the mounted component is
    rejected (no connection), the operation stops there: that request is
    the last one sent, the five game fields are unchanged, [isLoading] is
    false and the status message is "Error: " followed by the message of
    the thrown value, or by the handler's fallback text when it has none. *)
Theorem rejected_request_is_reported
    (base : string) (net : Network) (e : Event) (s : State)
    (rq : Request) (ex : Thrown) :
  e <> Mounted false ->
  In rq (snd (exec (handler base net e) s)) ->
  net rq = Rejects ex ->
  same_game (fst (exec (handler base net e) s)) s
  /\ isLoading (fst (exec (handler base net e) s)) = false
  /\ statusMessage (fst (exec (handler base net e) s))
     = "Error: " ++ message_of ex (fallback_message e)
  /\ (exists before, snd (exec (handler base net e) s) = (before ++ [rq])%list).
Proof.
  intros Hm Hin Hnet. revert Hin. unfold same_game.
  destruct e as [[|] | index |]; cbn [handler fallback_message];
    unfold exec, init, onCellPress, onReset, fetch; unfold_monad; cbn.
  - by_answers net; close_case.
  - contradiction Hm. reflexivity.
  - destruct (canPlay s); cbn; [| intros []].
    destruct (no_gameId s); cbn; [intros [] |].
    destruct (JS.not_null (cell_at (board s) index)); cbn; [intros [] |].
    by_answers net; close_case.
  - destruct (no_gameId s); cbn; [intros [] |].
    by_answers net; close_case.
Qed.

Lemma rejected_request_is_reported_witness :
  statusMessage (fst (exec (handler "http://h/api" net_down (Mounted true)) initial))
  = "Error: Network request failed"
  /\ statusMessage (fst (exec (handler "http://h/api" (fun _ => Rejects Opaque)
                                 ResetPressed) scenario2))
     = "Error: Reset failed".
Proof.
  split.
  - apply (rejected_request_is_reported "http://h/api" net_down (Mounted true) initial
             (health_request "http://h/api") (WithMessage "Network request failed"));
      [discriminate | vm_compute; left; reflexivity | reflexivity].
  - apply (rejected_request_is_reported "http://h/api" (fun _ => Rejects Opaque)
             ResetPressed scenario2 (reset_request "http://h/api" "g1") Opaque);
      [discriminate | vm_compute; left; reflexivity | reflexivity].
Defined.

(** X8: when the create-game, move or reset request is answered with a
    success status and a body that cannot be read as JSON, nothing is
    adopted: the five game fields are unchanged, [isLoading] is false and
    the status message is "Error: " followed by the parser's message or the
    handler's fallback text. *)
Theorem unreadable_body_is_reported
    (base : string) (net : Network) (e : Event) (s : State)
    (rq : Request) (r : Response) (ex : Thrown) :
  e <> Mounted false ->
  In rq (snd (exec (handler base net e) s)) ->
  rq <> health_request base ->
  net rq = Resolves r ->
  ok r = true ->
  json r = Threw ex ->
  same_game (fst (exec (handler base net e) s)) s
  /\ isLoading (fst (exec (handler base net e) s)) = false
  /\ statusMessage (fst (exec (handler base net e) s))
     = "Error: " ++ message_of ex (fallback_message e).
Proof.
  intros Hm Hin Hrq Hnet Hok Hjson. revert Hin. unfold same_game.
  destruct e as [[|] | index |]; cbn [handler fallback_message];
    unfold exec, init, onCellPress, onReset, fetch; unfold_monad; cbn.
  - by_answers net; close_case.
  - contradiction Hm. reflexivity.
  - destruct (canPlay s); cbn; [| intros []].
    destruct (no_gameId s); cbn; [intros [] |].
    destruct (JS.not_null (cell_at (board s) index)); cbn; [intros [] |].
    by_answers net; close_case.
  - destruct (no_gameId s); cbn; [intros [] |].
    by_answers net; close_case.
Qed.

Definition net_html : Network :=
  fun _ => Resolves {| status := 200; text := Some "<html>";
                       json := Threw (WithMessage "JSON Parse error: Unexpected token: <") |}.

Lemma unreadable_body_is_reported_witness :
  statusMessage (fst (exec (handler "http://h/api" net_html (CellPressed 0)) scenario2))
  = "Error: JSON Parse error: Unexpected token: <".
Proof.
  apply (unreadable_body_is_reported "http://h/api" net_html (CellPressed 0) scenario2
           (move_request "http://h/api" "g1" 0)
           {| status := 200; text := Some "<html>";
              json := Threw (WithMessage "JSON Parse error: Unexpected token: <") |}
           (WithMessage "JSON Parse error: Unexpected token: <"));
    [discriminate | vm_compute; left; reflexivity | discriminate
     | reflexivity | reflexivity | reflexivity].
Defined.

Lemma same_game_settled_adopt (p : value) (s : State) (l : bool) (m done : string) :
  same_game
    (settled
       (adopt p {| gameId := gameId s; board := board s; nextPlayer := nextPlayer s;
                   winner := winner s; isDraw := isDraw s;
                   isLoading := l; statusMessage := m |}) done)
    (adopt p s).
Proof.
  unfold same_game, settled. cbn. destruct (id_throws p) eqn:Hthrow.
  - rewrite !(adopt_throws p _ Hthrow). repeat split.
  - rewrite !(adopt_fields p _ Hthrow). repeat split.
Qed.

(** Decides a case of an operation's run: the game fields are as before,
    or they are those of the adoption of a body that was received. *)
Ltac unchanged_or_adopted :=
  first
    [ left; repeat split; reflexivity
    | right;
      match goal with
      | Hj : json ?r = Returned ?p, Hn : _ ?q = Resolves ?r |- _ =>
          exists q, r, p;
          split; [cbn; tauto |];
          split; [exact Hn |];
          split; [assumption |];
          split; [exact Hj |];
          apply same_game_settled_adopt
      end ].

(** X9: the client computes no game state of its own.  After any
    operation the five game fields are either what they were, or what
    adopting the body of a response does to them, for a request the
    operation sent that was answered with a success status and a readable
    body. *)
Theorem game_changes_only_by_adoption
    (base : string) (net : Network) (e : Event) (s : State) :
  same_game (fst (exec (handler base net e) s)) s
  \/ exists rq r p,
       In rq (snd (exec (handler base net e) s))
       /\ net rq = Resolves r /\ ok r = true /\ json r = Returned p
       /\ same_game (fst (exec (handler base net e) s)) (adopt p s).
Proof.
  destruct e as [[|] | index |]; cbn [handler];
    unfold exec, init, onCellPress, onReset, fetch; unfold_monad; cbn.
  - by_answers net; unchanged_or_adopted.
  - by_answers net; unchanged_or_adopted.
  - destruct (canPlay s); cbn; [| unchanged_or_adopted].
    destruct (no_gameId s); cbn; [unchanged_or_adopted |].
    destruct (JS.not_null (cell_at (board s) index)); cbn; [unchanged_or_adopted |].
    by_answers net; unchanged_or_adopted.
  - destruct (no_gameId s); cbn; [unchanged_or_adopted |].
    by_answers net; unchanged_or_adopted.
Qed.

(** X10: the mount effect sends the health check first and nothing but the
    create-game request after it; it sends the create-game request exactly
    when the health check was answered with a success status.  This holds
    whether or not the component is still mounted. *)
Theorem init_request_order
    (base : string) (net : Network) (isMounted : bool) (s : State) :
  (snd (exec (init base net isMounted) s) = [health_request base]
   \/ snd (exec (init base net isMounted) s)
      = [health_request base; create_request base])
  /\ (In (create_request base) (snd (exec (init base net isMounted) s))
      <-> exists h, net (health_request base) = Resolves h /\ ok h = true).
Proof.
  assert (Hne : create_request base <> health_request base) by discriminate.
  destruct isMounted; unfold exec, init, fetch; unfold_monad; cbn;
    (destruct (net (health_request base)) as [eh | h] eqn:Hh; cbn;
     [ split; [left; reflexivity |];
       split; [intros [H | []]; congruence | intros (h & Hr & _); discriminate]
     | destruct (ok h) eqn:Hok; cbn;
       [ by_answers net;
         (split; [right; reflexivity
                 | split; [intros _; exists h; split; congruence
                          | intros _; right; left; reflexivity]])
       | split; [left; reflexivity |];
         split; [intros [H | []]; congruence
                | intros (h' & Hr & Hok'); congruence] ] ]).
Qed.

(** X11: once the component is unmounted the mount effect records
    nothing: whatever the backend answers, no payload is adopted and no
    error is reported; the status message is that of the step the effect
    had reached and [isLoading] stays true. *)
Theorem init_unmounted_records_nothing (base : string) (net : Network) (s : State) :
  same_game (fst (exec (init base net false) s)) s
  /\ isLoading (fst (exec (init base net false) s)) = true
  /\ (statusMessage (fst (exec (init base net false) s)) = "Pinging server..."
      \/ statusMessage (fst (exec (init base net false) s)) = "Creating game...").
Proof.
  unfold same_game, exec, init, fetch. unfold_monad. cbn.
  by_answers net; repeat split; (left; reflexivity) || (right; reflexivity).
Qed.

Lemma init_request_order_witness :
  In (create_request "http://h/api")
     (snd (exec (init "http://h/api" net_create true) initial)).
Proof.
  destruct (init_request_order "http://h/api" net_create true initial) as [_ H].
  apply H. eexists. split; reflexivity.
Defined.

(** The message of an operation's success path. *)
Definition success_message (e : Event) : string :=
  match e with
  | Mounted _ => "Game ready!"
  | CellPressed _ => "Move accepted."
  | ResetPressed => "Game reset."
  end.

(** The success path of the three operations. *)
Lemma handler_success
    (base : string) (net : Network) (e : Event) (s : State)
    (rq : Request) (r : Response) (p : value) :
  e <> Mounted false ->
  In rq (snd (exec (handler base net e) s)) ->
  rq <> health_request base ->
  net rq = Resolves r ->
  ok r = true ->
  json r = Returned p ->
  fst (exec (handler base net e) s) = settled (adopt p s) (success_message e).
Proof.
  intros Hm Hin Hrq Hnet Hok Hjson. revert Hin.
  destruct e as [[|] | index |]; cbn [handler success_message];
    unfold exec, init, onCellPress, onReset, fetch; unfold_monad; cbn.
  - by_answers net; close_case.
    match goal with
    | |- context [adopt ?v _] => replace p with v by congruence
    end.
    apply settled_adopt.
  - contradiction Hm. reflexivity.
  - destruct (canPlay s); cbn; [| intros []].
    destruct (no_gameId s); cbn; [intros [] |].
    destruct (JS.not_null (cell_at (board s) index)); cbn; [intros [] |].
    by_answers net; close_case.
    match goal with
    | |- context [adopt ?v _] => replace p with v by congruence
    end.
    apply settled_adopt.
  - destruct (no_gameId s); cbn; [intros [] |].
    by_answers net; close_case.
    match goal with
    | |- context [adopt ?v _] => replace p with v by congruence
    end.
    apply settled_adopt.
Qed.

(** X12: when the create-game, move or reset request of the mounted
    component is answered with a success status and a readable body, the
    operation ends in the state that adopting the body gives from the state
    it started in, with [isLoading] false and the message of that operation
    ("Game ready!", "Move accepted.", "Game reset."); in particular a valid
    board of the response becomes the board, unless the id conversion
    throws. *)
Theorem successful_response_is_adopted
    (base : string) (net : Network) (e : Event) (s : State)
    (rq : Request) (r : Response) (p : value) :
  e <> Mounted false ->
  In rq (snd (exec (handler base net e) s)) ->
  rq <> health_request base ->
  net rq = Resolves r ->
  ok r = true ->
  json r = Returned p ->
  fst (exec (handler base net e) s) = settled (adopt p s) (success_message e)
  /\ statusMessage (fst (exec (handler base net e) s)) = success_message e
  /\ isLoading (fst (exec (handler base net e) s)) = false
  /\ (forall b, JS.get p "board" = Arr b -> length b = 9 -> id_throws p = false ->
        board (fst (exec (handler base net e) s)) = b).
Proof.
  intros Hm Hin Hrq Hnet Hok Hjson.
  rewrite (handler_success base net e s rq r p Hm Hin Hrq Hnet Hok Hjson).
  repeat split.
  intros b Hb Hlen Hthrow. cbn. rewrite (adopt_fields p s Hthrow). cbn.
  unfold valid_board. rewrite Hb. cbn. rewrite Hlen. reflexivity.
Qed.

Lemma successful_response_is_adopted_witness :
  fst (exec (handler "http://h/api" net_move4 (CellPressed 4)) scenario1)
  = settled (adopt payload_move4 scenario1) "Move accepted.".
Proof.
  apply (successful_response_is_adopted "http://h/api" net_move4 (CellPressed 4)
           scenario1 (move_request "http://h/api" "g1" 4)
           {| status := 200; text := None; json := Returned payload_move4 |}
           payload_move4);
    [discriminate | vm_compute; left; reflexivity | discriminate
     | reflexivity | reflexivity | reflexivity].
Defined.

(** ** Payload adoption, continued *)

(** X13: adopting the same payload twice is adopting it once. *)
Theorem adopt_idempotent (p : value) (s : State) :
  adopt p (adopt p s) = adopt p s.
Proof.
  destruct (id_throws p) eqn:Hthrow.
  - rewrite !(adopt_throws p _ Hthrow). reflexivity.
  - rewrite (adopt_fields p (adopt p s) Hthrow), (adopt_fields p s Hthrow). cbn.
    destruct (JS.truthy (JS.get p "id")); destruct (JS.get p "board");
      destruct (JS.get p "nextPlayer"); try reflexivity;
      destruct (valid_board p); destruct (valid_nextPlayer p); reflexivity.
Qed.

(** X14: a complete payload (an id that converts, a valid board, a valid
    next player) replaces the game state wholesale: the five game fields
    after adoption do not depend on the state before. *)
Theorem complete_payload_replaces_game (p : value) (s1 s2 : State) :
  JS.truthy (JS.get p "id") = true ->
  id_throws p = false ->
  valid_board p = true ->
  valid_nextPlayer p = true ->
  same_game (adopt p s1) (adopt p s2).
Proof.
  intros Hid Hthrow Hb Hn. unfold same_game.
  rewrite (adopt_fields p s1 Hthrow), (adopt_fields p s2 Hthrow). cbn.
  rewrite Hid, Hb, Hn.
  revert Hb Hn. unfold valid_board, valid_nextPlayer. 
  destruct (JS.get p "board"); try discriminate.
  destruct (JS.get p "nextPlayer"); try discriminate.
  repeat split.
Qed.

Lemma complete_payload_replaces_game_witness :
  same_game (adopt payload_g1 x_won) (adopt payload_g1 drawn).
Proof.
  apply (complete_payload_replaces_game payload_g1 x_won drawn); reflexivity.
Defined.

(** ** Invariants of the reachable states *)

Definition valid_turn (s : State) : Prop :=
  nextPlayer s = "X" \/ nextPlayer s = "O".

Lemma adopt_valid_turn (p : value) (s : State) :
  valid_turn s -> valid_turn (adopt p s).
Proof.
  unfold valid_turn. intros H.
  destruct (id_throws p) eqn:Hthrow.
  - rewrite (adopt_throws p s Hthrow). exact H.
  - rewrite (adopt_fields p s Hthrow). cbn. unfold valid_nextPlayer.
    destruct (JS.get p "nextPlayer") as [| | | |q| |]; try exact H. cbn.
    destruct (String.eqb q "X") eqn:HX; cbn.
    + left. apply String.eqb_eq. exact HX.
    + destruct (String.eqb q "O") eqn:HO; [| exact H].
      right. apply String.eqb_eq. exact HO.
Qed.

(** X15: [nextPlayer] is 'X' or 'O' in every state the component can
    reach, whatever payloads the backend sends: it starts as 'X' and is
    assigned only a validated value.  So the turn shown is the cross
    exactly for 'X' and the circle exactly for 'O'. *)
Theorem nextPlayer_always_valid (base : string) (h : list (Event * Network)) :
  (nextPlayer (run base h) = "X" \/ nextPlayer (run base h) = "O")
  /\ (canPlay (run base h) = true ->
      (nextPlayer (run base h) = "X" /\ computedStatus (run base h) = "Turn: ❌")
      \/ (nextPlayer (run base h) = "O" /\ computedStatus (run base h) = "Turn: ⭕️")).
Proof.
  assert (H : valid_turn (run base h)).
  { unfold run. apply (preserves_history valid_turn);
      intros; try apply adopt_valid_turn; try assumption.
    left. reflexivity. }
  split; [exact H |].
  unfold canPlay, computedStatus. intros Hplay.
  destruct (isLoading (run base h)); [discriminate |].
  destruct (JS.truthy (winner (run base h))); [discriminate |].
  destruct (isDraw (run base h)); [discriminate |].
  destruct H as [H | H]; rewrite H; [left | right]; split; reflexivity.
Qed.

Lemma nextPlayer_always_valid_witness :
  (nextPlayer scenario2 = "X" /\ computedStatus scenario2 = "Turn: ❌")
  \/ (nextPlayer scenario2 = "O" /\ computedStatus scenario2 = "Turn: ⭕️").
Proof.
  apply (nextPlayer_always_valid "http://h/api"
           [(Mounted true, net_create); (CellPressed 4, net_move4)]).
  reflexivity.
Defined.

Definition is_symbol (c : string) : Prop :=
  c = "❌" \/ c = "⭕️" \/ c = "⬜️".

Lemma toEmoji_symbol (v : value) : is_symbol (toEmoji v).
Proof.
  unfold is_symbol, toEmoji.
  destruct (JS.is_str v "X"); [left; reflexivity |].
  destruct (JS.is_str v "O"); [right; left; reflexivity | right; right; reflexivity].
Qed.

(** X16: in every state the component can reach the grid has exactly 9
    cells and each shows one of the three symbols, whatever values the
    backend put in a board: an entry that is neither 'X' nor 'O' shows as
    the empty square. *)
Theorem grid_always_nine_symbols (base : string) (h : list (Event * Network)) :
  length (rendered_cells (run base h)) = 9
  /\ Forall is_symbol (rendered_cells (run base h))
  /\ (forall i v, nth_error (board (run base h)) i = Some v ->
        JS.is_str v "X" = false -> JS.is_str v "O" = false ->
        nth_error (rendered_cells (run base h)) i = Some "⬜️").
Proof.
  assert (H : nine_cells (run base h)).
  { unfold run. apply (preserves_history nine_cells);
      intros; try apply adopt_nine_cells; try assumption.
    reflexivity. }
  unfold rendered_cells. split; [rewrite length_map; exact H |].
  split.
  - apply Forall_forall. intros c Hc. apply in_map_iff in Hc.
    destruct Hc as (v & <- & _). apply toEmoji_symbol.
  - intros i v Hv HX HO. rewrite nth_error_map, Hv. cbn.
    unfold toEmoji. rewrite HX, HO. reflexivity.
Qed.

(** A board whose entries are not marks. *)
Definition net_odd_board : Network :=
  fun _ => respond (Obj [("id", Str "g2");
                         ("board", Arr [Num "1"; Str "x"; Bool true; Null; Str "X";
                                        Obj []; Arr []; Str "O"; Str "XO"])]).

Lemma grid_always_nine_symbols_witness :
  nth_error (rendered_cells (run "http://h/api" [(Mounted true, net_odd_board)])) 1
  = Some "⬜️".
Proof.
  destruct (grid_always_nine_symbols "http://h/api" [(Mounted true, net_odd_board)])
    as (_ & _ & H).
  apply (H 1 (Str "x")); reflexivity.
Defined.

(** ** Status line *)

(** X17: the status line shows a turn exactly when moves are allowed:
    [computedStatus] starts with "Turn:" if and only if [canPlay]. *)
Theorem turn_shown_iff_canPlay (s : State) :
  Str.startsWith (computedStatus s) "Turn:" = canPlay s.
Proof.
  unfold computedStatus, canPlay.
  destruct (isLoading s); [reflexivity |].
  destruct (JS.truthy (winner s)); [destruct (JS.is_str (winner s) "X"); reflexivity |].
  destruct (isDraw s); [reflexivity |].
  destruct (String.eqb (nextPlayer s) "X"); reflexivity.
Qed.

(** X18: after a response that reports a winner or a draw has been
    adopted, the board is locked: [canPlay] is false, the status line
    shows the winner or the draw, and every cell press is a no-op, for any
    index. *)
Theorem game_over_locks_board
    (base : string) (net : Network) (e : Event) (s : State)
    (rq : Request) (r : Response) (p : value) :
  e <> Mounted false ->
  In rq (snd (exec (handler base net e) s)) ->
  rq <> health_request base ->
  net rq = Resolves r ->
  ok r = true ->
  json r = Returned p ->
  id_throws p = false ->
  JS.truthy (JS.get p "winner") = true \/ JS.truthy (JS.get p "isDraw") = true ->
  let s' := fst (exec (handler base net e) s) in
  canPlay s' = false
  /\ (JS.truthy (JS.get p "winner") = true ->
      computedStatus s' = "Winner: ❌" \/ computedStatus s' = "Winner: ⭕️")
  /\ (JS.truthy (JS.get p "winner") = false -> computedStatus s' = "Draw!")
  /\ (forall net' index, exec (onCellPress base net' index) s' = (s', [])).
Proof.
  intros Hm Hin Hrq Hnet Hok Hjson Hthrow Hover. cbn zeta.
  rewrite (handler_success base net e s rq r p Hm Hin Hrq Hnet Hok Hjson).
  assert (Hw : JS.truthy (winner (settled (adopt p s) (success_message e)))
               = JS.truthy (JS.get p "winner")).
  { cbn. rewrite (adopt_fields p s Hthrow). cbn. apply truthy_nullish_or. }
  assert (Hd : isDraw (settled (adopt p s) (success_message e))
               = JS.truthy (JS.get p "isDraw")).
  { cbn. rewrite (adopt_fields p s Hthrow). reflexivity. }
  assert (Hplay : canPlay (settled (adopt p s) (success_message e)) = false).
  { apply canPlay_false. rewrite Hw, Hd. right. exact Hover. }
  split; [exact Hplay |].
  split; [| split].
  - intros Hwin. unfold computedStatus. rewrite Hw, Hwin. cbn.
    destruct (JS.is_str _ "X"); [left | right]; reflexivity.
  - intros Hwin. unfold computedStatus. rewrite Hw, Hd, Hwin. cbn.
    destruct Hover as [Ho | Ho]; [congruence | rewrite Ho; reflexivity].
  - intros net' index. apply onCellPress_returns_early. left. exact Hplay.
Qed.

Definition payload_x_wins : value :=
  Obj [("board", Arr [Str "X"; Str "X"; Str "X"; Str "O"; Str "O"; Null; Null; Null; Null]);
       ("nextPlayer", Str "O"); ("winner", Str "X"); ("isDraw", Bool false)].

Lemma game_over_locks_board_witness :
  canPlay (fst (exec (handler "http://h/api" (fun _ => respond payload_x_wins)
                        (CellPressed 2)) scenario1)) = false.
Proof.
  apply (game_over_locks_board "http://h/api" (fun _ => respond payload_x_wins)
           (CellPressed 2) scenario1 (move_request "http://h/api" "g1" 2)
           {| status := 200; text := None; json := Returned payload_x_wins |}
           payload_x_wins);
    [discriminate | vm_compute; left; reflexivity | discriminate
     | reflexivity | reflexivity | reflexivity | reflexivity | left; reflexivity].
Defined.

(** X19: every operation of the mounted component that sent a request
    ends with its outcome on display: the line under the status is
    rendered, and it shows either the operation's success message in the
    text colour or a message starting with "Error: " in the error colour. *)
Theorem operation_outcome_is_shown
    (base : string) (net : Network) (e : Event) (s : State) :
  e <> Mounted false ->
  snd (exec (handler base net e) s) <> [] ->
  sub_status (fst (exec (handler base net e) s))
  = Some (success_message e, theme_text)
  \/ exists m,
       sub_status (fst (exec (handler base net e) s))
       = Some ("Error: " ++ m, theme_error).
Proof.
  intros Hm.
  destruct e as [[|] | index |]; cbn [handler success_message];
    unfold exec, init, onCellPress, onReset, fetch; unfold_monad; cbn.
  - by_answers net; intros _;
      first [left; reflexivity | right; eexists; reflexivity].
  - contradiction Hm. reflexivity.
  - destruct (canPlay s); cbn; [| intros H; contradiction H; reflexivity].
    destruct (no_gameId s); cbn; [intros H; contradiction H; reflexivity |].
    destruct (JS.not_null (cell_at (board s) index)); cbn;
      [intros H; contradiction H; reflexivity |].
    by_answers net; intros _;
      first [left; reflexivity | right; eexists; reflexivity].
  - destruct (no_gameId s); cbn; [intros H; contradiction H; reflexivity |].
    by_answers net; intros _;
      first [left; reflexivity | right; eexists; reflexivity].
Qed.

Lemma operation_outcome_is_shown_witness :
  sub_status (fst (exec (handler "http://h/api" net_post_fails (CellPressed 4)) scenario1))
  = Some ("Move accepted.", theme_text)
  \/ exists m,
       sub_status (fst (exec (handler "http://h/api" net_post_fails (CellPressed 4))
                          scenario1))
       = Some ("Error: " ++ m, theme_error).
Proof.
  apply (operation_outcome_is_shown "http://h/api" net_post_fails (CellPressed 4)
           scenario1); [discriminate | vm_compute; discriminate].
Defined.

(** X20: the reset button and its handler.  When the button is rendered
    enabled its handler sends exactly one request; without a game id the
    button is rendered disabled and its handler does nothing. *)
Theorem reset_button_agrees_with_handler
    (base : string) (net : Network) (s : State) :
  (reset_disabled s = false -> length (snd (exec (onReset base net) s)) = 1)
  /\ (no_gameId s = true ->
      reset_disabled s = true /\ exec (onReset base net) s = (s, [])).
Proof.
  unfold reset_disabled. split.
  - intros Hd. apply orb_false_iff in Hd. destruct Hd as [_ Hno].
    unfold no_gameId in Hno.
    destruct (gameId s) as [g |] eqn:Hg; [| discriminate].
    destruct (Str.nonempty g) eqn:Hn; [| discriminate].
    rewrite (onReset_sent base net s g Hg Hn). reflexivity.
  - intros Hno. split; [rewrite Hno; apply orb_true_r |].
    unfold exec, onReset. unfold_monad. cbn. rewrite Hno. reflexivity.
Qed.

Lemma reset_button_agrees_with_handler_witness :
  length (snd (exec (onReset "http://h/api" net_create) scenario2)) = 1.
Proof.
  apply (reset_button_agrees_with_handler "http://h/api" net_create scenario2).
  reflexivity.
Defined.

(** ** Operations in sequence *)

(** X21: the id of a created game is the id later requests carry.  After a
    successful create-game whose payload has a non-empty string [id], no
    winner, no draw and a valid board, pressing a cell that is [null] in
    that board sends one request, to [<base>/games/<id>/move/], and a reset
    sends one to [<base>/games/<id>/reset/]. *)
Theorem created_game_is_addressed
    (base : string) (net net' : Network) (s : State)
    (h c : Response) (p : value) (g : string) (b : list value) (index : Z) :
  net (health_request base) = Resolves h -> ok h = true ->
  net (create_request base) = Resolves c -> ok c = true ->
  json c = Returned p ->
  JS.get p "id" = Str g -> g <> "" ->
  JS.get p "board" = Arr b -> length b = 9 ->
  JS.truthy (JS.get p "winner") = false ->
  JS.truthy (JS.get p "isDraw") = false ->
  cell_at b index = Null ->
  let s' := fst (exec (init base net true) s) in
  gameId s' = Some g
  /\ snd (exec (onCellPress base net' index) s') = [move_request base g index]
  /\ snd (exec (onReset base net') s') = [reset_request base g].
Proof.
  intros Hh Hokh Hc Hokc Hj Hid Hg Hb Hlen Hw Hd Hcell. cbn zeta.
  rewrite (init_success base net s h c p Hh Hokh Hc Hokc Hj). cbn [fst].
  assert (Hn : Str.nonempty g = true) by (destruct g; [contradiction | reflexivity]).
  assert (Hthrow : id_throws p = false).
  { unfold id_throws. rewrite Hid. cbn. apply andb_false_r. }
  assert (Hgid : gameId (settled (adopt p s) "Game ready!") = Some g).
  { cbn. rewrite (adopt_fields p s Hthrow). cbn. rewrite Hid. cbn. rewrite Hn.
    reflexivity. }
  split; [exact Hgid |].
  split.
  - rewrite (onCellPress_sent base net' index _ g); [reflexivity | | exact Hgid | exact Hn |].
    + unfold canPlay. cbn. rewrite (adopt_fields p s Hthrow). cbn.
      rewrite truthy_nullish_or, Hw, Hd. reflexivity.
    + cbn. rewrite (adopt_fields p s Hthrow). cbn. unfold valid_board.
      rewrite Hb. cbn. rewrite Hlen. cbn. rewrite Hcell. reflexivity.
  - rewrite (onReset_sent base net' _ g Hgid Hn). reflexivity.
Qed.

Lemma created_game_is_addressed_witness :
  snd (exec (onCellPress "http://h/api" net_down 4) scenario1)
  = [move_request "http://h/api" "g1" 4].
Proof.
  apply (created_game_is_addressed "http://h/api" net_create net_down initial
           {| status := 200; text := None; json := Returned payload_g1 |}
           {| status := 200; text := None; json := Returned payload_g1 |}
           payload_g1 "g1" (repeat Null 9) 4);
    first [reflexivity | discriminate].
Defined.

(** ** The API base, continued *)

Module TrimFacts.

Lemma is_ws_in (w : string) : Str.is_ws w = true -> In w Str.whitespace.
Proof.
  unfold Str.is_ws. intros H. apply existsb_exists in H.
  destruct H as (x & Hin & Heq). apply String.eqb_eq in Heq. subst x. exact Hin.
Qed.

Ltac not_whitespace :=
  match goal with
  | |- Str.is_ws ?w = false =>
      destruct (Str.is_ws w) eqn:Hws; [exfalso | reflexivity];
      apply is_ws_in in Hws; cbn in Hws;
      repeat (destruct Hws as [Hws | Hws]; [inversion Hws |]);
      exact Hws
  end.

(** No white-space encoding ends with the byte of 'i'. *)
Lemma ws2_i (a : ascii) : Str.is_ws (String a (String "i" "")) = false.
Proof. not_whitespace. Qed.

Lemma ws3_i (a b : ascii) : Str.is_ws (String a (String b (String "i" ""))) = false.
Proof. not_whitespace. Qed.

Lemma trimStart_keeps_last_i (n : nat) :
  forall t, String.length t <= n -> exists t', Str.trimStart (t ++ "i") = t' ++ "i".
Proof.
  induction n as [n IH] using lt_wf_ind. intros t Hlen.
  destruct t as [| a t1]; [exists ""; reflexivity |].
  cbn [append Str.trimStart].
  destruct (Str.is_ws (String a "")).
  { apply (IH (String.length t1)); cbn in Hlen; lia. }
  destruct t1 as [| b t2]; cbn [append].
  { rewrite ws2_i. exists (String a ""). reflexivity. }
  destruct (Str.is_ws (String a (String b ""))).
  { apply (IH (String.length t2)); cbn in Hlen; lia. }
  destruct t2 as [| c t3]; cbn [append].
  { rewrite ws3_i. exists (String a (String b "")). reflexivity. }
  destruct (Str.is_ws (String a (String b (String c "")))).
  { apply (IH (String.length t3)); cbn in Hlen; lia. }
  exists (String a (String b (String c t3))). reflexivity.
Qed.

Lemma trimStart_rev_keeps_first_i (x : string) :
  Str.trimStart_rev (String "i" x) = String "i" x.
Proof.
  cbn [Str.trimStart_rev].
  replace (Str.is_ws (String "i" "")) with false by reflexivity.
  destruct x as [| b r2]; [reflexivity |].
  rewrite ws2_i.
  destruct r2 as [| c r3]; [reflexivity |].
  rewrite ws3_i. reflexivity.
Qed.

Lemma nonempty_app_cons (a : string) (c : ascii) (b : string) :
  Str.nonempty (a ++ String c b) = true.
Proof. destruct a; reflexivity. Qed.

(** A string that ends with 'i' is not blank. *)
Lemma trim_nonempty_i (t : string) : Str.nonempty (Str.trim (t ++ "i")) = true.
Proof.
  unfold Str.trim.
  destruct (trimStart_keeps_last_i (String.length t) t (le_n _)) as [t' Ht].
  rewrite Ht, StrFacts.rev_app.
  change (Str.rev "i" ++ Str.rev t') with (String "i" (Str.rev t')).
  rewrite trimStart_rev_keeps_first_i, StrFacts.rev_cons.
  apply nonempty_app_cons.
Qed.

End TrimFacts.

Lemma API_BASE_ends_with_api (fromEnv : option string) :
  exists pre, API_BASE fromEnv = pre ++ "/api".
Proof.
  rewrite API_BASE_chosen.
  destruct (Str.endsWith (chosen_url fromEnv) "/api") eqn:Hends.
  - apply StrFacts.endsWith_iff. exact Hends.
  - eexists. reflexivity.
Qed.

(** X22: the resolution is idempotent: a resolved API base, given back as
    the environment's URL, resolves to itself.  No second "/api" is
    appended and nothing is stripped. *)
Theorem API_BASE_idempotent (fromEnv : option string) :
  API_BASE (Some (API_BASE fromEnv)) = API_BASE fromEnv.
Proof.
  destruct (API_BASE_ends_with_api fromEnv) as [pre Hpre].
  assert (Hends : Str.endsWith (API_BASE fromEnv) "/api" = true).
  { apply StrFacts.endsWith_iff. exists pre. exact Hpre. }
  assert (Htrim : Str.nonempty (Str.trim (API_BASE fromEnv)) = true).
  { rewrite Hpre.
    replace (pre ++ "/api") with ((pre ++ "/ap") ++ "i")
      by (rewrite StrFacts.app_assoc; reflexivity).
    apply TrimFacts.trim_nonempty_i. }
  assert (Hne : Str.nonempty (API_BASE fromEnv) = true).
  { rewrite Hpre. apply TrimFacts.nonempty_app_cons. }
  generalize dependent (API_BASE fromEnv). intros r _ Hends Htrim Hne.
  unfold API_BASE. rewrite Hne, Htrim. cbn [andb]. rewrite Hends. reflexivity.
Qed.

Example API_BASE_twice :
  API_BASE (Some (API_BASE (Some " https://b.example// ")))
  = " https://b.example// /api".
Proof. reflexivity. Qed.

(** ** Retrying after a failure *)

(** The request was not answered with a success status and a readable body. *)
Definition failed (a : FetchResult) : Prop :=
  match a with
  | Rejects _ => True
  | Resolves r => ok r = false \/ exists ex, json r = Threw ex
  end.

(** X23: a failed move can be retried by the same gesture.  When a cell
    press passed its guards and its request failed (rejected, answered
    with a non-success status, or with an unreadable body), pressing the
    same cell again sends the same request again, and the retry ends
    exactly as the first attempt would have ended with that answer. *)
Theorem failed_move_can_be_retried
    (base : string) (net net' : Network) (index : Z) (s : State) (g : string) :
  canPlay s = true ->
  gameId s = Some g ->
  g <> "" ->
  cell_at (board s) index = Null ->
  failed (net (move_request base g index)) ->
  let s' := fst (exec (onCellPress base net index) s) in
  snd (exec (onCellPress base net' index) s') = [move_request base g index]
  /\ (forall r p,
        net' (move_request base g index) = Resolves r -> ok r = true ->
        json r = Returned p ->
        fst (exec (onCellPress base net' index) s')
        = fst (exec (onCellPress base net' index) s)).
Proof.
  intros Hplay Hg Hne Hcell Hfail. cbn zeta.
  assert (Hn : Str.nonempty g = true) by (destruct g; [contradiction | reflexivity]).
  assert (Hnull : JS.not_null (cell_at (board s) index) = false)
    by (rewrite Hcell; reflexivity).
  rewrite (onCellPress_sent base net index s g Hplay Hg Hn Hnull). cbn [fst].
  assert (Hs' : exists m,
            concluded "Move" "Move accepted." s (net (move_request base g index))
            = settled s m).
  { unfold concluded. destruct (net (move_request base g index)) as [ex | r].
    - eexists. reflexivity.
    - cbn in Hfail. destruct (ok r).
      + destruct Hfail as [H | [ex H]]; [discriminate |]. rewrite H.
        eexists. reflexivity.
      + eexists. reflexivity. }
  destruct Hs' as [m ->].
  assert (Hplay' : canPlay (settled s m) = true).
  { revert Hplay. unfold canPlay. cbn. destruct (isLoading s); cbn; [discriminate |].
    intros H. exact H. }
  rewrite (onCellPress_sent base net' index (settled s m) g Hplay' Hg Hn Hnull).
  rewrite (onCellPress_sent base net' index s g Hplay Hg Hn Hnull). cbn [fst snd].
  split; [reflexivity |].
  intros r p Hr Hok Hj. unfold concluded. rewrite Hr, Hok, Hj.
  unfold settled. destruct (id_throws p) eqn:Hthrow.
  - rewrite !(adopt_throws p _ Hthrow). reflexivity.
  - rewrite !(adopt_fields p _ Hthrow). reflexivity.
Qed.

Lemma failed_move_can_be_retried_witness :
  snd (exec (onCellPress "http://h/api" net_move4 4)
         (fst (exec (onCellPress "http://h/api" net_post_fails 4) scenario1)))
  = [move_request "http://h/api" "g1" 4].
Proof.
  apply (failed_move_can_be_retried "http://h/api" net_post_fails net_move4 4
           scenario1 "g1");
    [reflexivity | reflexivity | discriminate | reflexivity | left; reflexivity].
Defined.

(** ** The body of a move request *)

Lemma app_cancel_l (c a b : string) : c ++ a = c ++ b -> a = b.
Proof.
  induction c as [| x c IH]; cbn; intros H; [exact H |].
  injection H as H. apply IH. exact H.
Qed.

Lemma app_cancel_r (a b c : string) : a ++ c = b ++ c -> a = b.
Proof.
  intros H. apply (f_equal Str.rev) in H. rewrite !StrFacts.rev_app in H.
  apply app_cancel_l in H.
  rewrite <- (StrFacts.rev_involutive a), <- (StrFacts.rev_involutive b), H.
  reflexivity.
Qed.

Lemma to_int_not_nil (z : Z) : Z.to_int z <> Decimal.Pos Decimal.Nil
                               /\ Z.to_int z <> Decimal.Neg Decimal.Nil.
Proof.
  destruct z as [| q | q]; cbn; split; try discriminate;
    intros H; injection H as H; apply (DecimalPos.Unsigned.to_uint_nonnil q H).
Qed.

(** X24: the body of a move request determines the cell: two indices with
    the same body are the same index. *)
Theorem move_body_injective (i j : Z) : move_body i = move_body j -> i = j.
Proof.
  unfold move_body. intros H.
  apply app_cancel_l in H. apply app_cancel_l in H. apply app_cancel_l in H.
  apply app_cancel_l in H. apply app_cancel_l in H.
  apply app_cancel_r in H.
  apply (f_equal NilZero.int_of_string) in H.
  destruct (to_int_not_nil i) as [Hi1 Hi2], (to_int_not_nil j) as [Hj1 Hj2].
  rewrite !NilZero.isi in H by assumption.
  injection H as H. apply (f_equal Z.of_int) in H.
  rewrite !DecimalZ.of_to in H. exact H.
Qed.

Lemma move_body_injective_witness : (2 + 2)%Z = 4%Z.
Proof. apply (move_body_injective (2 + 2) 4). reflexivity. Defined.
